(** * Guardrailed text generation and RAG retrieval: a shallow embedding

    The two notebooks of the repository that carry logic are embedded here:

    - [task_04_responsible_ai/04.01_bedrock_guardrails_apply_guardrail_api.ipynb],
      class [TextGenerationWithGuardrails] (module [Guardrails]);
    - the RAG-with-guardrails notebook, functions [apply_output_guardrail],
      [retrieve_context] and [get_opensearch_vector_context] (module [Rag]).

    Both are clients of remote services.  A service is an oracle of the
    world: it answers a request, possibly depending on the calls made so far,
    with a value or with a raised exception.  Python code is a computation in
    a state-and-exception monad whose state is the log of service calls and
    the lines printed. *)

From stdpp Require Import gmap strings list.
From Stdlib Require Import ZArith.

Set Warnings "-register-all".
Open Scope Z_scope.

(** ** Python values, exceptions and effects *)

Module Py.

(** JSON-like Python values.  A [float] is carried as its IEEE-754
    binary64 bit pattern; the code never computes with one. *)
Inductive pyval : Type :=
  | PNone
  | PBool (b : bool)
  | PInt (n : Z)
  | PFloat (bits : Z)
  | PStr (s : string)
  | PList (l : list pyval)
  | PDict (d : gmap string pyval).

(** Exceptions (all of them subclasses of [Exception]).  [ClientError]
    stands for [botocore.exceptions.ClientError] and its subclasses,
    [ServiceError] for any other exception a client library raises
    (connection errors, parameter validation, model errors, ...). *)
Inductive exn : Type :=
  | ClientError (msg : string)
  | ServiceError (cls msg : string)
  | AttributeError
  | IndexError
  | KeyError
  | TypeError.

Definition is_ClientError (e : exn) : bool :=
  match e with ClientError _ => true | _ => false end.

(** [v == s] for a string literal [s]. *)
Definition py_eq_str (v : pyval) (s : string) : bool :=
  match v with PStr t => bool_decide (t = s) | _ => false end.

(** [bool(v)]. *)
Definition py_truthy (v : pyval) : bool :=
  match v with
  | PNone => false
  | PBool b => b
  | PInt n => negb (n =? 0)
  | PFloat bits => negb ((bits =? 0) || (bits =? 2 ^ 63))
  | PStr s => negb (bool_decide (s = EmptyString))
  | PList l => negb (bool_decide (l = []))
  | PDict d => negb (bool_decide (d = ∅))
  end.

(** [d.get(key, dflt)] on a dict. *)
Definition dict_get (d : gmap string pyval) (key : string) (dflt : pyval) : pyval :=
  default dflt (d !! key).

(** [key in d] on a dict. *)
Definition dict_contains (d : gmap string pyval) (key : string) : bool :=
  bool_decide (is_Some (d !! key)).

(** [d[key]] on a dict. *)
Definition dict_getitem (d : gmap string pyval) (key : string) : exn + pyval :=
  match d !! key with
  | Some v => inr v
  | None => inl KeyError
  end.

(** [v.get(key, dflt)]: only a dict has the method. *)
Definition py_get (v : pyval) (key : string) (dflt : pyval) : exn + pyval :=
  match v with
  | PDict d => inr (dict_get d key dflt)
  | _ => inl AttributeError
  end.

(** Sequence indexing, negative indices counting from the end. *)
Definition seq_index {A : Type} (l : list A) (i : Z) : exn + A :=
  let n := Z.of_nat (length l) in
  let j := if i <? 0 then i + n else i in
  if (j <? 0) || (n <=? j) then inl IndexError
  else match l !! Z.to_nat j with
       | Some x => inr x
       | None => inl IndexError
       end.

(** A [str] is held as its UTF-8 bytes.  A continuation byte ([10xxxxxx])
    belongs to the character that the nearest byte before it starts. *)
Definition is_continuation (c : Ascii.ascii) : bool :=
  let n := Z.of_nat (Ascii.nat_of_ascii c) in
  (128 <=? n) && (n <? 192).

(** Put a byte in front of the characters that follow it. *)
Definition add_byte (c : Ascii.ascii) (following : list string) : list string :=
  match following with
  | String c' tail :: others =>
      if is_continuation c' then String c (String c' tail) :: others
      else String c EmptyString :: following
  | _ => String c EmptyString :: following
  end.

(** The characters (code points) of a string, each a string of length one. *)
Definition chars (s : string) : list pyval :=
  PStr <$> foldr add_byte [] (String.list_ascii_of_string s).

(** An index: an [int], or a [bool] (which is an [int]). *)
Definition as_index (key : pyval) : option Z :=
  match key with
  | PInt i => Some i
  | PBool b => Some (if b then 1 else 0)
  | _ => None
  end.

(** [v[key]]. *)
Definition py_getitem (v key : pyval) : exn + pyval :=
  match v with
  | PDict d =>
      match key with
      | PStr k => dict_getitem d k
      | PList _ | PDict _ => inl TypeError
      | _ => inl KeyError
      end
  | PList l =>
      match as_index key with
      | Some i => seq_index l i
      | None => inl TypeError
      end
  | PStr s =>
      match as_index key with
      | Some i => seq_index (chars s) i
      | None => inl TypeError
      end
  | _ => inl TypeError
  end.

(** The elements a [for] loop visits.  A dict yields its keys (here in
    the order of the map, not of insertion; no result depends on it). *)
Definition py_iter (v : pyval) : exn + list pyval :=
  match v with
  | PList l => inr l
  | PStr s => inr (chars s)
  | PDict d => inr (PStr <$> (map_to_list d).*1)
  | _ => inl TypeError
  end.

(** What a [print] call writes: literal text, and values or exceptions
    that are formatted into it. *)
Inductive fmt : Type :=
  | FLit (s : string)
  | FVal (v : pyval)
  | FExn (e : exn).

Section Effects.
Context {Ev : Type}.

(** The service calls made so far, oldest first, and the lines printed. *)
Record State : Type := mkState {
  calls : list Ev;
  stdout : list (list fmt)
}.

Definition M (A : Type) : Type := State → (exn + A) * State.

Definition ret {A} (a : A) : M A := λ s, (inr a, s).

Definition raise {A} (e : exn) : M A := λ s, (inl e, s).

Definition bind {A B} (m : M A) (k : A → M B) : M B :=
  λ s, match m s with
       | (inr a, s') => k a s'
       | (inl e, s') => (inl e, s')
       end.

(** A pure expression that may raise. *)
Definition lift {A} (r : exn + A) : M A := λ s, (r, s).

(** [try: body / except: handler]. *)
Definition try_except {A} (body : M A) (handler : exn → M A) : M A :=
  λ s, match body s with
       | (inl e, s') => handler e s'
       | (inr a, s') => (inr a, s')
       end.

Definition print (line : list fmt) : M unit :=
  λ s, (inr tt, mkState (calls s) (stdout s ++ [line])).

(** A request to a remote service: the oracle [answer] sees the calls
    made so far; the call and its outcome are logged by [log]. *)
Definition call {A} (answer : list Ev → exn + A) (log : exn + A → Ev) : M A :=
  λ s, let r := answer (calls s) in
       (r, mkState (calls s ++ [log r]) (stdout s)).

(** A list comprehension [[f x for x in l]]. *)
Fixpoint for_each {A B} (f : A → M B) (l : list A) : M (list B) :=
  match l with
  | [] => ret []
  | x :: l' => bind (f x) (λ y, bind (for_each f l') (λ ys, ret (y :: ys)))
  end.

(** The calls a computation issued, given the states before and after. *)
Definition issued (s s' : State) : list Ev :=
  drop (length (calls s)) (calls s').

End Effects.

Arguments State : clear implicits.
Arguments M : clear implicits.

Notation "'let*' x ':=' m 'in' k" := (bind m (λ x, k))
  (at level 10, x name, m at level 100, k at level 200, only parsing).
Notation "'let*' ' p ':=' m 'in' k" := (bind m (λ x, match x with p => k end))
  (at level 10, p pattern, m at level 100, k at level 200, only parsing).

End Py.

Import Py.

(** ** The guarded text-generation sequencer *)

Module Guardrails.

(** Keyword arguments of [bedrock_runtime.apply_guardrail]. *)
Record ApplyGuardrailArgs : Type := {
  guardrailIdentifier : string;
  guardrailVersion : string;
  source : string;
  content : pyval
}.

(** A [sagemaker.predictor.Predictor] with the JSON serializer and
    deserializer: the endpoint it calls and the session it was given. *)
Record Predictor : Type := {
  endpoint_name : string;
  sagemaker_session : pyval
}.

Inductive Event : Type :=
  | EvApplyGuardrail (args : ApplyGuardrailArgs) (resp : exn + gmap string pyval)
  | EvPredict (endpoint : Predictor) (payload : pyval) (resp : exn + pyval).

(** The remote services.  The Bedrock client returns a dict; the
    predictor returns whatever JSON the endpoint sent. *)
Record World : Type := {
  apply_guardrail_api : list Event → ApplyGuardrailArgs → exn + gmap string pyval;
  predict_api : list Event → Predictor → pyval → exn + pyval
}.

(** The attributes [__init__] sets.  [bedrock_runtime], the boto3 client of
    the [bedrock-runtime] service, is the world's [apply_guardrail_api]. *)
Record TextGenerationWithGuardrails : Type := {
  predictor : Predictor;
  model_id : string;
  guardrail_id : string;
  guardrail_version : string
}.

(** [__init__]; [sagemaker_session] defaults to [None]. *)
Definition init (endpoint_name model_id guardrail_id guardrail_version : string)
    (sagemaker_session : option pyval) : TextGenerationWithGuardrails :=
  {| predictor := {| endpoint_name := endpoint_name;
                     sagemaker_session := default PNone sagemaker_session |};
     model_id := model_id;
     guardrail_id := guardrail_id;
     guardrail_version := guardrail_version |}.

Definition response_of (ev : Event) : (exn + gmap string pyval) + (exn + pyval) :=
  match ev with
  | EvApplyGuardrail _ r => inl r
  | EvPredict _ _ r => inr r
  end.

Definition is_predict (ev : Event) : bool :=
  match ev with EvPredict _ _ _ => true | _ => false end.

(** The line [analyze_text] prints before it re-raises. *)
Definition error_line (e : exn) : list fmt :=
  [FLit "Error applying guardrail: "; FExn e].

Section Model.

(** [str(v)] for a value that is not a [str] (the text Python prints for
    numbers and containers), as used by the f-string of [analyze_text]. *)
Variable format_value : pyval → string.

Definition py_str (v : pyval) : string :=
  match v with
  | PStr s => s
  | _ => format_value v
  end.

Variable w : World.
Variable self : TextGenerationWithGuardrails.

Definition predictor_predict (payload : pyval) : M Event pyval :=
  call (λ h, predict_api w h (predictor self) payload)
       (EvPredict (predictor self) payload).

Definition bedrock_runtime_apply_guardrail (args : ApplyGuardrailArgs)
  : M Event (gmap string pyval) :=
  call (λ h, apply_guardrail_api w h args) (EvApplyGuardrail args).

(** The [payload] dict [generate_text] sends. *)
Definition generation_payload (inputs max_new_tokens temperature : pyval) : pyval :=
  PDict {[
    "inputs" := inputs;
    "parameters" := PDict {[
      "max_new_tokens" := max_new_tokens;
      "temperature" := temperature;
      "stop" := PStr "<|eot_id|>"
    ]}
  ]}.

Definition generate_text (inputs : pyval) (max_new_tokens temperature : pyval)
  : M Event pyval :=
  let payload := generation_payload inputs max_new_tokens temperature in
  let* response := predictor_predict payload in
  lift (py_get response "generated_text" (PStr "")).

(** The [content] list [analyze_text] sends. *)
Definition guard_content_blocks (grounding_source query guard_content : pyval) : pyval :=
  PList [
    PDict {[ "text" := PDict {[
      "text" := grounding_source;
      "qualifiers" := PList [PStr "grounding_source"] ]} ]};
    PDict {[ "text" := PDict {[
      "text" := query;
      "qualifiers" := PList [PStr "query"] ]} ]};
    PDict {[ "text" := PDict {[
      "text" := guard_content;
      "qualifiers" := PList [PStr "guard_content"] ]} ]}
  ].

Definition guardrail_args (grounding_source query guard_content : pyval)
  (source : string) : ApplyGuardrailArgs :=
  {| guardrailIdentifier := guardrail_id self;
     guardrailVersion := guardrail_version self;
     source := source;
     content := guard_content_blocks grounding_source query guard_content |}.

Definition analyze_text (grounding_source query guard_content : pyval)
  (source : string) : M Event (bool * pyval * gmap string pyval) :=
  try_except
    (let content := guard_content_blocks grounding_source query guard_content in
     let* response := bedrock_runtime_apply_guardrail
                   {| guardrailIdentifier := guardrail_id self;
                      guardrailVersion := guardrail_version self;
                      source := source;
                      content := content |} in
     let action := dict_get response "action" (PStr "") in
     if py_eq_str action "NONE" then
       ret (true, PStr "", response)
     else if py_eq_str action "GUARDRAIL_INTERVENED" then
       let* first :=
         lift (py_getitem (dict_get response "outputs" (PList [PDict ∅])) (PInt 0)) in
       let* message := lift (py_get first "text" (PStr "Guardrail intervened")) in
       ret (false, message, response)
     else
       ret (false, PStr ("Unknown action: " +:+ py_str action), response))
    (λ e,
       if is_ClientError e then
         let* _ := print (error_line e) in
         raise e
       else raise e).

(** What [analyze_text] makes of a response it received: the branches
    after the [apply_guardrail] call, as a function of the response.
    [analyze_text_run] below relates the two. *)
Definition verdict (response : gmap string pyval)
  : exn + (bool * pyval * gmap string pyval) :=
  let action := dict_get response "action" (PStr "") in
  if py_eq_str action "NONE" then inr (true, PStr "", response)
  else if py_eq_str action "GUARDRAIL_INTERVENED" then
    match py_getitem (dict_get response "outputs" (PList [PDict ∅])) (PInt 0) with
    | inl e => inl e
    | inr first =>
        match py_get first "text" (PStr "Guardrail intervened") with
        | inl e => inl e
        | inr message => inr (false, message, response)
        end
    end
  else inr (false, PStr ("Unknown action: " +:+ py_str action), response).

Definition analyze_prompt (grounding_source query : pyval)
  : M Event (bool * pyval * gmap string pyval) :=
  analyze_text grounding_source query query "INPUT".

Definition analyze_output (grounding_source query generated_text : pyval)
  : M Event (bool * pyval * gmap string pyval) :=
  analyze_text grounding_source query generated_text "OUTPUT".

(** [max_new_tokens] defaults to [256] and [temperature] to [0.0]. *)
Definition generate_and_analyze (grounding_source query : pyval)
  (max_new_tokens temperature : option pyval) : M Event (bool * pyval * pyval) :=
  let max_new_tokens := default (PInt 256) max_new_tokens in
  let temperature := default (PFloat 0) temperature in
  let* '(prompt_passed, prompt_message, _) := analyze_prompt grounding_source query in
  if negb prompt_passed then
    ret (false, prompt_message, PStr "")
  else
    let* generated_text := generate_text query max_new_tokens temperature in
    let* '(output_passed, output_message, _) :=
      analyze_output grounding_source query generated_text in
    if negb output_passed then
      ret (false, output_message, PStr "")
    else
      ret (true, PStr "", generated_text).

(** The result of a guardrail call, from what the service answered. *)
Definition guardrail_outcome (r : exn + gmap string pyval)
  : exn + (bool * pyval * gmap string pyval) :=
  match r with
  | inl e => inl e
  | inr response => verdict response
  end.

(** The result of [generate_text], from what the endpoint answered. *)
Definition generation_outcome (r : exn + pyval) : exn + pyval :=
  match r with
  | inl e => inl e
  | inr response => py_get response "generated_text" (PStr "")
  end.

(** The runs of [generate_and_analyze] on given arguments, as the calls
    issued (with the answers received) and the result: the possible
    paths through the function body.  [generate_and_analyze_pipeline]
    below shows every execution is one of them. *)
Inductive pipeline (gs q mnt temp : pyval)
  : list Event → exn + (bool * pyval * pyval) → Prop :=
  | input_raised r1 e :
      guardrail_outcome r1 = inl e →
      pipeline gs q mnt temp
        [EvApplyGuardrail (guardrail_args gs q q "INPUT") r1]
        (inl e)
  | input_blocked r1 msg d :
      guardrail_outcome r1 = inr (false, msg, d) →
      pipeline gs q mnt temp
        [EvApplyGuardrail (guardrail_args gs q q "INPUT") r1]
        (inr (false, msg, PStr ""))
  | generation_raised r1 msg d r2 e :
      guardrail_outcome r1 = inr (true, msg, d) →
      generation_outcome r2 = inl e →
      pipeline gs q mnt temp
        [EvApplyGuardrail (guardrail_args gs q q "INPUT") r1;
         EvPredict (predictor self) (generation_payload q mnt temp) r2]
        (inl e)
  | output_raised r1 msg d r2 text r3 e :
      guardrail_outcome r1 = inr (true, msg, d) →
      generation_outcome r2 = inr text →
      guardrail_outcome r3 = inl e →
      pipeline gs q mnt temp
        [EvApplyGuardrail (guardrail_args gs q q "INPUT") r1;
         EvPredict (predictor self) (generation_payload q mnt temp) r2;
         EvApplyGuardrail (guardrail_args gs q text "OUTPUT") r3]
        (inl e)
  | output_blocked r1 msg d r2 text r3 msg' d' :
      guardrail_outcome r1 = inr (true, msg, d) →
      generation_outcome r2 = inr text →
      guardrail_outcome r3 = inr (false, msg', d') →
      pipeline gs q mnt temp
        [EvApplyGuardrail (guardrail_args gs q q "INPUT") r1;
         EvPredict (predictor self) (generation_payload q mnt temp) r2;
         EvApplyGuardrail (guardrail_args gs q text "OUTPUT") r3]
        (inr (false, msg', PStr ""))
  | all_passed r1 msg d r2 text r3 msg' d' :
      guardrail_outcome r1 = inr (true, msg, d) →
      generation_outcome r2 = inr text →
      guardrail_outcome r3 = inr (true, msg', d') →
      pipeline gs q mnt temp
        [EvApplyGuardrail (guardrail_args gs q q "INPUT") r1;
         EvPredict (predictor self) (generation_payload q mnt temp) r2;
         EvApplyGuardrail (guardrail_args gs q text "OUTPUT") r3]
        (inr (true, PStr "", text)).

End Model.

End Guardrails.

(** ** RAG retrieval and the output guardrail of the RAG notebook *)

Module Rag.

Inductive Event : Type :=
  | EvApplyGuardrail (args : Guardrails.ApplyGuardrailArgs)
      (resp : exn + gmap string pyval)
  | EvEmbed (query : pyval) (resp : exn + pyval)
  | EvSearch (index : pyval) (body : pyval) (resp : exn + pyval).

(** The services behind [bedrock_client], [embedder] and
    [opensearch_client]. *)
Record World : Type := {
  apply_guardrail_api :
    list Event → Guardrails.ApplyGuardrailArgs → exn + gmap string pyval;
  embedder_api : list Event → pyval → exn + pyval;
  search_api : list Event → pyval → pyval → exn + pyval
}.

(** The notebook's global variables that the functions read. *)
Record Globals : Type := {
  guardrail_id : string;
  guardrail_version : string;
  index_name : pyval
}.

(** The contract of the search service on the [size] field of a request:
    a search that asks for [n] results is answered with at most [n] hits. *)
Definition honours_size (w : World) : Prop :=
  ∀ (h : list Event) (index : pyval) (body : gmap string pyval) (n : Z)
    (response outer : pyval) (hits : list pyval),
    body !! "size" = Some (PInt n) →
    search_api w h index (PDict body) = inr response →
    py_getitem response (PStr "hits") = inr outer →
    py_getitem outer (PStr "hits") = inr (PList hits) →
    Z.of_nat (length hits) ≤ n.

Section Model.

Variable w : World.
Variable g : Globals.

Definition bedrock_client_apply_guardrail (args : Guardrails.ApplyGuardrailArgs)
  : M Event (gmap string pyval) :=
  call (λ h, apply_guardrail_api w h args) (EvApplyGuardrail args).

Definition embedder (query : pyval) : M Event pyval :=
  call (λ h, embedder_api w h query) (EvEmbed query).

Definition opensearch_client_search (index body : pyval) : M Event pyval :=
  call (λ h, search_api w h index body) (EvSearch index body).

(** The request [apply_output_guardrail] sends. *)
Definition output_guardrail_args (output_text : pyval) : Guardrails.ApplyGuardrailArgs :=
  {| Guardrails.guardrailIdentifier := guardrail_id g;
     Guardrails.guardrailVersion := guardrail_version g;
     Guardrails.source := "OUTPUT";
     Guardrails.content :=
       PList [PDict {[ "text" := PDict {[ "text" := output_text ]} ]}] |}.

Definition apply_output_guardrail (output_text : pyval) : M Event pyval :=
  let* _ := print [FLit "Apply bedrock guardrails to the input using"; FLit " ";
                   FVal (PStr (guardrail_id g)); FLit " ";
                   FVal (PStr (guardrail_version g))] in
  try_except
    (let* response := bedrock_client_apply_guardrail
                        (output_guardrail_args output_text) in
     let* has_outputs :=
       if dict_contains response "outputs" then
         let* outputs := lift (dict_getitem response "outputs") in
         ret (py_truthy outputs)
       else ret false in
     if has_outputs then
       let* outputs := lift (dict_getitem response "outputs") in
       let* first := lift (py_getitem outputs (PInt 0)) in
       lift (py_getitem first (PStr "text"))
     else
       ret output_text)
    (λ e,
       let* _ := print [FLit "Warning: Output guardrail application failed: ";
                        FExn e] in
       ret output_text).

(** What [apply_output_guardrail] returns on a response it received
    ([apply_output_guardrail_run] below). *)
Definition filtered_text (output_text : pyval) (response : gmap string pyval) : pyval :=
  match response !! "outputs" with
  | Some outputs =>
      if py_truthy outputs then
        match py_getitem outputs (PInt 0) with
        | inr first =>
            match py_getitem first (PStr "text") with
            | inr text => text
            | inl _ => output_text
            end
        | inl _ => output_text
        end
      else output_text
  | None => output_text
  end.

(** The search request of [retrieve_context]. *)
Definition search_body (query_embedding k : pyval) : pyval :=
  PDict {[
    "size" := k;
    "query" := PDict {[
      "knn" := PDict {[
        "vector" := PDict {[
          "vector" := query_embedding;
          "k" := k
        ]}
      ]}
    ]}
  ]}.

(** [k] defaults to [3]. *)
Definition retrieve_context (query : pyval) (k : option pyval) : M Event (list pyval) :=
  let k := default (PInt 3) k in
  let* embedded := embedder query in
  let* row := lift (py_getitem embedded (PInt 0)) in
  let* query_embedding := lift (py_getitem row (PInt 0)) in
  let search_body := search_body query_embedding k in
  let* response := opensearch_client_search (index_name g) search_body in
  let* outer := lift (py_getitem response (PStr "hits")) in
  let* hits := lift (py_getitem outer (PStr "hits")) in
  let* hits := lift (py_iter hits) in
  for_each
    (λ hit,
       let* src := lift (py_getitem hit (PStr "_source")) in
       lift (py_getitem src (PStr "text")))
    hits.

Definition get_opensearch_vector_context (input_query : pyval) : M Event pyval :=
  let query := PStr "What is Amazon?" in
  let* contexts := retrieve_context input_query None in
  let* _ := print [FLit "Retrieved context: "; FLit " "; FVal (PList contexts)] in
  let* context_prompt :=
    if negb (bool_decide (contexts = [])) then
      if 0 <? Z.of_nat (length contexts) then lift (seq_index contexts 0)
      else ret PNone
    else ret PNone in
  ret context_prompt.

End Model.

End Rag.

(** ** Concrete worlds

    Services with fixed answers, on which the functions can be run. *)

Module Examples.

(** No value other than a [str] is formatted in the runs below. *)
Definition plain_format (v : pyval) : string := "".

Definition self0 : Guardrails.TextGenerationWithGuardrails :=
  Guardrails.init "llama-endpoint" "meta-llama" "gr-1234" "1" None.

(** A world whose guardrail answers [on_input] to an ["INPUT"] request and
    [on_output] to any other, and whose endpoint answers [generated]. *)
Definition scripted (on_input on_output : exn + gmap string pyval)
    (generated : exn + pyval) : Guardrails.World :=
  {| Guardrails.apply_guardrail_api := λ _ args,
       if bool_decide (Guardrails.source args = "INPUT") then on_input else on_output;
     Guardrails.predict_api := λ _ _ _, generated |}.

Definition passes : gmap string pyval :=
  {[ "action" := PStr "NONE"; "outputs" := PList [] ]}.

Definition intervenes : gmap string pyval :=
  {[ "action" := PStr "GUARDRAIL_INTERVENED";
     "outputs" := PList [PDict {[ "text" := PStr "Sorry, I cannot answer that." ]}] ]}.

Definition intervenes_without_output : gmap string pyval :=
  {[ "action" := PStr "GUARDRAIL_INTERVENED"; "outputs" := PList [] ]}.

Definition generation : pyval :=
  PDict {[ "generated_text" := PStr "Paris is the capital of France." ]}.

Definition grounding : pyval := PStr "France is a country. Its capital is Paris.".
Definition question : pyval := PStr "What is the capital of France?".

Definition fresh : State Guardrails.Event := mkState [] [].

(** A state with an earlier call in its log. *)
Definition used : State Guardrails.Event :=
  mkState [Guardrails.EvPredict (Guardrails.predictor self0) (PStr "warm-up")
             (inl (ServiceError "ModelError" "loading"))]
          [[FLit "warming up"]].

Definition blocks_prompt : Guardrails.World :=
  scripted (inr intervenes) (inr passes) (inr generation).

Definition blocks_answer : Guardrails.World :=
  scripted (inr passes) (inr intervenes) (inr generation).

Definition passes_all : Guardrails.World :=
  scripted (inr passes) (inr passes) (inr generation).

Definition empty_intervention : Guardrails.World :=
  scripted (inr intervenes_without_output) (inr passes) (inr generation).

(** Blocks the prompt too, but its endpoint is down and its output check
    would intervene. *)
Definition blocks_prompt_endpoint_down : Guardrails.World :=
  scripted (inr intervenes) (inr intervenes) (inl (ServiceError "ModelError" "")).

Definition throttled : Guardrails.World :=
  scripted (inl (ClientError "ThrottlingException")) (inr passes) (inr generation).

Definition globals0 : Rag.Globals :=
  {| Rag.guardrail_id := "gr-1234";
     Rag.guardrail_version := "DRAFT";
     Rag.index_name := PStr "pubmed-index" |}.

(** One token vector per input row, as the feature-extraction pipeline
    returns them. *)
Definition embedding : pyval :=
  PList [PList [PList [PFloat 4598175219545276416; PFloat 4602678819172646912];
                PList [PFloat 0; PFloat 4607182418800017408]]].

Definition hit (text : string) : pyval :=
  PDict {[ "_id" := PStr "doc"; "_source" := PDict {[ "text" := PStr text ]} ]}.

Definition search_result (hits : list pyval) : pyval :=
  PDict {[ "took" := PInt 5; "hits" := PDict {[ "hits" := PList hits ]} ]}.

(** An index holding [stored], best match first: a search returns as
    many of them as the request's [size] asks for. *)
Definition search (stored : list pyval) (body : pyval) : exn + pyval :=
  match body with
  | PDict d =>
      match d !! "size" with
      | Some (PInt n) =>
          if n <? 0 then inl (ServiceError "RequestError" "illegal_argument_exception")
          else inr (search_result (take (Z.to_nat n) stored))
      | _ => inl (ServiceError "RequestError" "parsing_exception")
      end
  | _ => inl (ServiceError "RequestError" "parsing_exception")
  end.

(** A RAG world: the guardrail answers [guarded], the index holds [stored]. *)
Definition rag_world (guarded : exn + gmap string pyval) (stored : list pyval)
  : Rag.World :=
  {| Rag.apply_guardrail_api := λ _ _, guarded;
     Rag.embedder_api := λ _ _, inr embedding;
     Rag.search_api := λ _ _ body, search stored body |}.

Definition rag_fresh : State Rag.Event := mkState [] [].

(** A guardrail answer whose only output carries no text. *)
Definition textless : gmap string pyval :=
  {[ "action" := PStr "GUARDRAIL_INTERVENED"; "outputs" := PList [PDict ∅] ]}.

Definition masked : gmap string pyval :=
  {[ "action" := PStr "GUARDRAIL_INTERVENED";
     "outputs" := PList [PDict {[ "text" := PStr "My name is {NAME}." ]}] ]}.

Definition two_hits : list pyval := [hit "first passage"; hit "second passage"].

Definition library : Rag.World := rag_world (inr masked) two_hits.

Definition masking_guardrail : Rag.World := rag_world (inr masked) [].

Definition textless_guardrail : Rag.World := rag_world (inr textless) [].

Definition unreachable_guardrail : Rag.World :=
  rag_world (inl (ServiceError "EndpointConnectionError" "")) [].

End Examples.

(** ** The endpoint listing of the guardrails notebook *)

Module Endpoints.

(** The SageMaker control plane, as [list_sagemaker_endpoints] uses it:
    creating the client and calling [list_endpoints] is one request. *)
Inductive Event : Type :=
  | EvListEndpoints (resp : exn + gmap string pyval).

Record World : Type := {
  list_endpoints_api : list Event → exn + gmap string pyval
}.

(** The function [main] defines to list the endpoints. *)
Definition list_sagemaker_endpoints (w : World) : M Event pyval :=
  try_except
    (let* response := call (list_endpoints_api w) EvListEndpoints in
     ret (dict_get response "Endpoints" (PList [])))
    (λ e,
       let* _ := print [FLit "Error listing endpoints: "; FExn e] in
       ret (PList [])).

End Endpoints.

(** ** The fine-tuning notebook *)

Module Training.

Inductive Event : Type :=
  | EvDescribeTrainingJob (job_name : pyval) (resp : exn + gmap string pyval).

Record World : Type := {
  describe_training_job_api : list Event → pyval → exn + gmap string pyval
}.

Definition get_s3_path_from_job_name (w : World) (job_name : pyval)
  : M Event (pyval * pyval) :=
  let* response :=
    call (λ h, describe_training_job_api w h job_name) (EvDescribeTrainingJob job_name) in
  let* artifacts := lift (dict_getitem response "ModelArtifacts") in
  let* model_artifacts_s3_path := lift (py_getitem artifacts (PStr "S3ModelArtifacts")) in
  let* config := lift (dict_getitem response "OutputDataConfig") in
  let* output_path := lift (py_getitem config (PStr "S3OutputPath")) in
  ret (model_artifacts_s3_path, output_path).

Definition newline : string := String (Ascii.ascii_of_nat 10) EmptyString.
Definition quote : string := String (Ascii.ascii_of_nat 34) EmptyString.

(** The text of the f-string of [create_rag_sft_prompts] up to the context. *)
Definition prompt_head : string :=
  newline
  +:+ "        <|begin_of_text|>" +:+ newline
  +:+ "        <|start_header_id|>system<|end_header_id|>" +:+ newline
  +:+ "        You are an assistant for question-answering tasks. Answer the following question in 5 sentences using the provided context. If you don't know the answer, just say "
  +:+ quote +:+ "I don't know." +:+ quote +:+ "." +:+ newline
  +:+ "        <|start_header_id|>user<|end_header_id|>" +:+ newline
  +:+ "        Context: ".

(** Between the context and the question. *)
Definition prompt_question : string :=
  newline
  +:+ "        " +:+ newline
  +:+ "        Question: ".

(** Between the question and the answer. *)
Definition prompt_answer : string :=
  newline
  +:+ "        <|start_header_id|>assistant<|end_header_id|> " +:+ newline
  +:+ "        Answer:".

Section Prompts.

(** [str(v)] for a value that is not a [str], as in [Guardrails.py_str]. *)
Variable format_value : pyval → string.

(** The fields are read, and formatted, from left to right. *)
Definition create_rag_sft_prompts (data_point : gmap string pyval)
  : exn + gmap string pyval :=
  match dict_getitem data_point "context" with
  | inl e => inl e
  | inr context =>
      match dict_getitem data_point "question" with
      | inl e => inl e
      | inr question =>
          match dict_getitem data_point "synthetic_answer" with
          | inl e => inl e
          | inr synthetic_answer =>
              let full_prompt :=
                prompt_head +:+ Guardrails.py_str format_value context
                +:+ prompt_question +:+ Guardrails.py_str format_value question
                +:+ prompt_answer +:+ Guardrails.py_str format_value synthetic_answer in
              inr {[ "prompt" := PStr full_prompt ]}
          end
      end
  end.

End Prompts.

End Training.

(** ** Search hits and further concrete worlds *)

Module Hits.

(** A hit whose text [retrieve_context] can read: [hit['_source']['text']]. *)
Definition readable (hit text : pyval) : Prop :=
  ∃ src, py_getitem hit (PStr "_source") = inr src
         ∧ py_getitem src (PStr "text") = inr text.

(** A hit on which reading the text raises [e]. *)
Definition unreadable (hit : pyval) (e : exn) : Prop :=
  py_getitem hit (PStr "_source") = inl e
  ∨ ∃ src, py_getitem hit (PStr "_source") = inr src
           ∧ py_getitem src (PStr "text") = inl e.

(** The k-nearest-neighbour search for [vector]: an OpenSearch query that
    asks for [k] neighbours of [vector] in the field ["vector"] and for at
    most [k] results.  Written here from the query language, not taken from
    the code; [Rag.search_body] is what the code sends. *)
Definition knn_request (vector k : pyval) : pyval :=
  PDict (<["query" :=
            PDict (<["knn" :=
                      PDict (<["vector" :=
                                PDict (<["k" := k]> (<["vector" := vector]> ∅))]> ∅)]> ∅)]>
           (<["size" := k]> ∅)).

End Hits.

Module MoreExamples.
Import Examples.

(** A guardrail answer with an action this code does not know. *)
Definition flagged : gmap string pyval :=
  {[ "action" := PStr "FLAGGED"; "outputs" := PList [] ]}.

(** A guardrail answer without an action. *)
Definition actionless : gmap string pyval :=
  {[ "usage" := PDict ∅ ]}.

Definition answers_actionless : Guardrails.World :=
  scripted (inr actionless) (inr passes) (inr generation).

(** Two outputs; only the first is reported. *)
Definition intervenes_twice : gmap string pyval :=
  {[ "action" := PStr "GUARDRAIL_INTERVENED";
     "outputs" := PList [PDict {[ "text" := PStr "Sorry, I cannot answer that." ]};
                         PDict {[ "text" := PStr "second output" ]}] ]}.

Definition blocks_prompt_twice : Guardrails.World :=
  scripted (inr intervenes_twice) (inr passes) (inr generation).

(** An endpoint that answers, as text-generation containers do, with a
    list holding the generation. *)
Definition answers_list : Guardrails.World :=
  scripted (inr passes) (inr passes) (inr (PList [generation])).

Definition endpoint_down : Guardrails.World :=
  scripted (inr passes) (inr passes) (inl (ServiceError "ModelError" "timed out")).

(** The same outputs as [masked], under the action ["NONE"]. *)
Definition masked_quietly : gmap string pyval :=
  {[ "action" := PStr "NONE";
     "outputs" := PList [PDict {[ "text" := PStr "My name is {NAME}." ]}] ]}.

Definition quiet_guardrail : Rag.World := rag_world (inr masked_quietly) [].

(** An embedding model that answers with an empty batch. *)
Definition no_embedding : Rag.World :=
  {| Rag.apply_guardrail_api := λ _ _, inr masked;
     Rag.embedder_api := λ _ _, inr (PList []);
     Rag.search_api := λ _ _ body, search two_hits body |}.

(** A hit without a source document. *)
Definition bare_hit : pyval := PDict {[ "_id" := PStr "doc" ]}.

Definition damaged_library : Rag.World :=
  rag_world (inr masked) [hit "first passage"; bare_hit; hit "third passage"].

Definition empty_library : Rag.World := rag_world (inr masked) [].

(** An index that returns its two documents whatever [size] asks for. *)
Definition generous_library : Rag.World :=
  {| Rag.apply_guardrail_api := λ _ _, inr masked;
     Rag.embedder_api := λ _ _, inr embedding;
     Rag.search_api := λ _ _ _, inr (search_result two_hits) |}.

(** A job that has produced no artifacts yet. *)
Definition running_job : gmap string pyval :=
  {[ "TrainingJobName" := PStr "job-2";
     "OutputDataConfig" := PDict {[ "S3OutputPath" := PStr "s3://bucket/" ]} ]}.

Definition jobs (answer : exn + gmap string pyval) : Training.World :=
  {| Training.describe_training_job_api := λ _ _, answer |}.

Definition no_jobs_called : State Training.Event := mkState [] [].

End MoreExamples.

(** * Properties *)

(** ** Python values *)

Lemma seq_index_0_cons {A : Type} (x : A) (l : list A) :
  seq_index (x :: l) 0 = inr x.
Proof.
  unfold seq_index.
  replace (0 <? 0) with false by reflexivity.
  assert (Hlen : (Z.of_nat (length (x :: l)) <=? 0) = false).
  { apply Z.leb_gt. simpl length. lia. }
  rewrite Hlen. reflexivity.
Qed.

Lemma seq_index_0_nil {A : Type} : seq_index (@nil A) 0 = inl IndexError.
Proof. reflexivity. Qed.

Lemma py_eq_str_true (v : pyval) (s : string) :
  py_eq_str v s = true ↔ v = PStr s.
Proof.
  destruct v; simpl; try (split; [discriminate | congruence]).
  rewrite bool_decide_eq_true. split; congruence.
Qed.

(** The interpreter's own errors are never a [ClientError]. *)
Lemma seq_index_error {A : Type} (l : list A) (i : Z) (e : exn) :
  seq_index l i = inl e → e = IndexError.
Proof.
  unfold seq_index.
  destruct (_ || _); [congruence |].
  destruct (l !! _); congruence.
Qed.

Lemma py_getitem_error (v key : pyval) (e : exn) :
  py_getitem v key = inl e → is_ClientError e = false.
Proof.
  destruct v; simpl; try (intros [= <-]; reflexivity).
  - destruct (as_index key); [| intros [= <-]; reflexivity].
    intros H. apply seq_index_error in H. subst e. reflexivity.
  - destruct (as_index key); [| intros [= <-]; reflexivity].
    intros H. apply seq_index_error in H. subst e. reflexivity.
  - unfold dict_getitem.
    destruct key; try (intros [= <-]; reflexivity).
    destruct (d !! s); intros [= <-]; reflexivity.
Qed.

Lemma py_get_error (v : pyval) (key : string) (dflt : pyval) (e : exn) :
  py_get v key dflt = inl e → e = AttributeError.
Proof. destruct v; simpl; congruence. Qed.

(** ** The effect monad *)

Lemma run_result {A S : Type} (run : A * S) (a : A) :
  run.1 = a → run = (a, run.2).
Proof. destruct run. simpl. congruence. Qed.

Section EffectFacts.
Context {Ev : Type}.

Lemma issued_app (s : State Ev) (out : list (list fmt)) (evs : list Ev) :
  issued s (mkState (calls s ++ evs) out) = evs.
Proof. unfold issued. simpl. apply drop_app_length. Qed.

Lemma issued_calls (s s' : State Ev) (evs : list Ev) :
  calls s' = calls s ++ evs → issued s s' = evs.
Proof. intros H. unfold issued. rewrite H. apply drop_app_length. Qed.

End EffectFacts.

(** ** The guarded sequencer *)

Section GuardrailsProofs.
Import Guardrails.

Variable format_value : pyval → string.
Variable self : TextGenerationWithGuardrails.

(** [analyze_text] is one [apply_guardrail] call followed by [verdict]. *)
Lemma analyze_text_run (w : World) (gs q gc : pyval) (src : string) (s : State Event) :
  analyze_text format_value w self gs q gc src s =
    let args := guardrail_args self gs q gc src in
    let r := apply_guardrail_api w (calls s) args in
    (guardrail_outcome format_value r,
     mkState (calls s ++ [EvApplyGuardrail args r])
             (match r with
              | inl e => if is_ClientError e then stdout s ++ [error_line e] else stdout s
              | inr _ => stdout s
              end)).
Proof.
  unfold analyze_text, try_except, bind, bedrock_runtime_apply_guardrail, call,
    guardrail_args, guardrail_outcome, verdict, lift, ret, raise, print.
  cbn zeta.
  destruct (apply_guardrail_api w (calls s) _) as [e | response].
  - destruct e; reflexivity.
  - cbn beta iota.
    destruct (py_eq_str _ "NONE"); [reflexivity |].
    destruct (py_eq_str _ "GUARDRAIL_INTERVENED"); [| reflexivity].
    destruct (py_getitem _ _) as [e | first] eqn:Hfirst.
    { apply py_getitem_error in Hfirst. cbn beta iota. rewrite Hfirst. reflexivity. }
    cbn beta iota.
    destruct (py_get first _ _) as [e | message] eqn:Hmsg; [| reflexivity].
    apply py_get_error in Hmsg. subst e. reflexivity.
Qed.

(** [generate_text] is one [predict] call followed by [.get]. *)
Lemma generate_text_run (w : World) (inputs mnt temp : pyval) (s : State Event) :
  generate_text w self inputs mnt temp s =
    let payload := generation_payload inputs mnt temp in
    let r := predict_api w (calls s) (predictor self) payload in
    (generation_outcome r,
     mkState (calls s ++ [EvPredict (predictor self) payload r]) (stdout s)).
Proof.
  unfold generate_text, generation_outcome, bind, predictor_predict, call, lift.
  cbn zeta.
  destruct (predict_api w (calls s) _ _) as [e | response]; reflexivity.
Qed.

(** [generate_and_analyze], step by step. *)
Lemma generate_and_analyze_run (w : World) (gs q : pyval) (mnt temp : option pyval)
    (s : State Event) :
  generate_and_analyze format_value w self gs q mnt temp s =
    match analyze_prompt format_value w self gs q s with
    | (inl e, s1) => (inl e, s1)
    | (inr (false, msg, _), s1) => (inr (false, msg, PStr ""), s1)
    | (inr (true, _, _), s1) =>
        match generate_text w self q (default (PInt 256) mnt)
                (default (PFloat 0) temp) s1 with
        | (inl e, s2) => (inl e, s2)
        | (inr text, s2) =>
            match analyze_output format_value w self gs q text s2 with
            | (inl e, s3) => (inl e, s3)
            | (inr (false, msg, _), s3) => (inr (false, msg, PStr ""), s3)
            | (inr (true, _, _), s3) => (inr (true, PStr "", text), s3)
            end
        end
    end.
Proof.
  unfold generate_and_analyze, bind, ret. cbn zeta.
  destruct (analyze_prompt _ _ _ _ _ s) as [[e | [[[] msg] d]] s1]; try reflexivity.
  cbn [negb].
  destruct (generate_text w self q _ _ s1) as [[e | text] s2]; try reflexivity.
  destruct (analyze_output _ _ _ _ _ _ s2) as [[e | [[[] msg'] d']] s3]; reflexivity.
Qed.

(** Every execution of [generate_and_analyze] appends to the call log one
    of the runs of [pipeline] and returns that run's result. *)
Lemma generate_and_analyze_pipeline (w : World) (gs q : pyval)
    (mnt temp : option pyval) (s : State Event) :
  ∃ tr,
    calls (generate_and_analyze format_value w self gs q mnt temp s).2 = calls s ++ tr
    ∧ pipeline format_value self gs q (default (PInt 256) mnt) (default (PFloat 0) temp)
        tr (generate_and_analyze format_value w self gs q mnt temp s).1.
Proof.
  rewrite generate_and_analyze_run.
  unfold analyze_prompt, analyze_output.
  rewrite analyze_text_run. cbv zeta.
  set (r1 := apply_guardrail_api w (calls s) _).
  destruct (guardrail_outcome format_value r1) as [e | [[[] msg] d]] eqn:H1;
    cbv beta iota.
  - eexists. split; [reflexivity |]. cbn [fst]. eapply input_raised; eassumption.
  - rewrite generate_text_run. cbv zeta. cbn [calls].
    set (r2 := predict_api w _ _ _).
    destruct (generation_outcome r2) as [e | text] eqn:H2; cbv beta iota.
    + eexists. split; [cbn [calls snd]; rewrite <- app_assoc; reflexivity |].
      cbn [fst app]. eapply generation_raised; eassumption.
    + rewrite analyze_text_run. cbv zeta. cbn [calls].
      set (r3 := apply_guardrail_api w _ _).
      destruct (guardrail_outcome format_value r3) as [e | [[[] msg'] d']] eqn:H3;
        cbv beta iota.
      * eexists. split; [cbn [calls snd]; rewrite <- !app_assoc; reflexivity |].
        cbn [fst app]. eapply output_raised; eassumption.
      * eexists. split; [cbn [calls snd]; rewrite <- !app_assoc; reflexivity |].
        cbn [fst app]. eapply all_passed; eassumption.
      * eexists. split; [cbn [calls snd]; rewrite <- !app_assoc; reflexivity |].
        cbn [fst app]. eapply output_blocked; eassumption.
  - eexists. split; [reflexivity |]. cbn [fst]. eapply input_blocked; eassumption.
Qed.

(** The third component of a verdict is the response itself. *)
Lemma guardrail_outcome_details (r : exn + gmap string pyval) (passed : bool)
    (msg : pyval) (d : gmap string pyval) :
  guardrail_outcome format_value r = inr (passed, msg, d) → r = inr d.
Proof.
  destruct r as [e | response]; [discriminate |].
  unfold guardrail_outcome, verdict. cbv zeta.
  destruct (py_eq_str _ "NONE"); [congruence |].
  destruct (py_eq_str _ "GUARDRAIL_INTERVENED"); [| congruence].
  destruct (py_getitem _ _); [discriminate |].
  destruct (py_get _ _ _); [discriminate | congruence].
Qed.

(** A run's result is determined by the answers it received. *)
Lemma pipeline_functional (gs q mnt temp : pyval) (tr tr' : list Event)
    (res res' : exn + (bool * pyval * pyval)) :
  pipeline format_value self gs q mnt temp tr res →
  pipeline format_value self gs q mnt temp tr' res' →
  response_of <$> tr = response_of <$> tr' →
  res = res'.
Proof.
  intros Hrun Hrun' Hresp.
  inversion Hrun; subst; inversion Hrun'; subst; cbn in Hresp;
    simplify_eq; congruence.
Qed.

(** A run is a non-empty prefix of: input check, generation, output check. *)
Lemma pipeline_prefix (gs q mnt temp : pyval) (tr : list Event)
    (res : exn + (bool * pyval * pyval)) :
  pipeline format_value self gs q mnt temp tr res →
  ∃ r1 r2 text r3,
    tr ≠ []
    ∧ tr `prefix_of`
        [EvApplyGuardrail (guardrail_args self gs q q "INPUT") r1;
         EvPredict (predictor self) (generation_payload q mnt temp) r2;
         EvApplyGuardrail (guardrail_args self gs q text "OUTPUT") r3].
Proof.
  intros Hrun.
  inversion Hrun; subst.
  - exists r1, (inl e), PNone, (inl e). split; [discriminate |]. by eexists [_; _].
  - exists r1, (inl KeyError), PNone, (inl KeyError).
    split; [discriminate |]. by eexists [_; _].
  - exists r1, r2, PNone, (inl e). split; [discriminate |]. by eexists [_].
  - exists r1, r2, text, r3. split; [discriminate |]. by exists [].
  - exists r1, r2, text, r3. split; [discriminate |]. by exists [].
  - exists r1, r2, text, r3. split; [discriminate |]. by exists [].
Qed.

(** The branches of [analyze_text] on a response. *)
Lemma verdict_passed_iff (response : gmap string pyval) :
  (∃ msg d, verdict format_value response = inr (true, msg, d))
  ↔ dict_get response "action" (PStr "") = PStr "NONE".
Proof.
  rewrite <- py_eq_str_true. unfold verdict. cbv zeta.
  destruct (py_eq_str _ "NONE").
  - split; eauto.
  - split; [| discriminate]. intros (msg & d & H).
    destruct (py_eq_str _ "GUARDRAIL_INTERVENED"); [| discriminate].
    destruct (py_getitem _ _); [discriminate |].
    destruct (py_get _ _ _); discriminate.
Qed.

Lemma verdict_none (response : gmap string pyval) :
  response !! "action" = Some (PStr "NONE") →
  verdict format_value response = inr (true, PStr "", response).
Proof. intros H. unfold verdict, dict_get. rewrite H. reflexivity. Qed.

Lemma verdict_intervened_first_text (response first : gmap string pyval)
    (rest : list pyval) :
  response !! "action" = Some (PStr "GUARDRAIL_INTERVENED") →
  response !! "outputs" = Some (PList (PDict first :: rest)) →
  verdict format_value response =
    inr (false, dict_get first "text" (PStr "Guardrail intervened"), response).
Proof.
  intros Hact Hout. unfold verdict, dict_get at 1 2 3. rewrite Hact, Hout.
  cbv [default from_option id py_getitem as_index].
  rewrite seq_index_0_cons. reflexivity.
Qed.

Lemma verdict_intervened_no_outputs (response : gmap string pyval) :
  response !! "action" = Some (PStr "GUARDRAIL_INTERVENED") →
  response !! "outputs" = None →
  verdict format_value response = inr (false, PStr "Guardrail intervened", response).
Proof.
  intros Hact Hout. unfold verdict, dict_get. rewrite Hact, Hout. reflexivity.
Qed.

Lemma verdict_unknown_action (response : gmap string pyval) :
  let action := dict_get response "action" (PStr "") in
  action ≠ PStr "NONE" →
  action ≠ PStr "GUARDRAIL_INTERVENED" →
  verdict format_value response =
    inr (false, PStr ("Unknown action: " +:+ py_str format_value action), response).
Proof.
  intros action Hnone Hint. unfold verdict. fold action.
  destruct (py_eq_str action "NONE") eqn:E1.
  { apply py_eq_str_true in E1. contradiction. }
  destruct (py_eq_str action "GUARDRAIL_INTERVENED") eqn:E2.
  { apply py_eq_str_true in E2. contradiction. }
  reflexivity.
Qed.

(** C4.  On a response whose action is ["GUARDRAIL_INTERVENED"] and whose
    ['outputs'] is the empty list, no output text is present, yet
    [analyze_text] does not return [(False, "Guardrail intervened", _)]:
    indexing the empty list raises [IndexError], which is not a
    [ClientError] and leaves the function. *)
Theorem analyze_text_empty_outputs_raises (w : World) (gs q gc : pyval)
    (src : string) (s : State Event) (response : gmap string pyval) :
  apply_guardrail_api w (calls s) (guardrail_args self gs q gc src) = inr response →
  response !! "action" = Some (PStr "GUARDRAIL_INTERVENED") →
  response !! "outputs" = Some (PList []) →
  (analyze_text format_value w self gs q gc src s).1 = inl IndexError.
Proof.
  intros Hresp Hact Hout.
  rewrite analyze_text_run. cbv zeta. rewrite Hresp.
  unfold guardrail_outcome, verdict, dict_get. rewrite Hact, Hout. reflexivity.
Qed.

(** C1.  [generate_and_analyze] always starts with the input guardrail
    call ([source = "INPUT"], the query as guarded content): it is the first
    call added to the log.  When that check returns with [passed = False]
    the function returns [(False, message, "")] in the state the check left:
    the input guardrail call is the only call it made, so the
    text-generation endpoint is never invoked. *)
Theorem generate_and_analyze_input_gate (w : World) (gs q : pyval)
    (mnt temp : option pyval) (s : State Event) :
  (∃ r1 rest,
      calls (generate_and_analyze format_value w self gs q mnt temp s).2 =
        calls s ++ EvApplyGuardrail (guardrail_args self gs q q "INPUT") r1 :: rest)
  ∧ (∀ msg details s1,
      analyze_prompt format_value w self gs q s = (inr (false, msg, details), s1) →
      generate_and_analyze format_value w self gs q mnt temp s =
        (inr (false, msg, PStr ""), s1)
      ∧ calls s1 =
          calls s ++ [EvApplyGuardrail (guardrail_args self gs q q "INPUT") (inr details)]
      ∧ Forall (λ ev, is_predict ev = false) (issued s s1)).
Proof.
  split.
  - destruct (generate_and_analyze_pipeline w gs q mnt temp s) as (tr & Hcalls & Hrun).
    rewrite Hcalls.
    inversion Hrun; subst; eauto.
  - intros msg details s1 Hprompt.
    assert (Hcalls : calls s1 =
              calls s ++ [EvApplyGuardrail (guardrail_args self gs q q "INPUT")
                            (inr details)]).
    { unfold analyze_prompt in Hprompt. rewrite analyze_text_run in Hprompt.
      cbv zeta in Hprompt. injection Hprompt as Hout Hs1.
      apply guardrail_outcome_details in Hout.
      subst s1. cbn [calls]. by rewrite Hout. }
    split; [| split].
    + rewrite generate_and_analyze_run, Hprompt. reflexivity.
    + exact Hcalls.
    + rewrite (issued_calls _ _ _ Hcalls). by repeat constructor.
Qed.

(** C2.  When the input check passes, the endpoint yields a text, and the
    output check on that text returns with [passed = False], the result is
    [(False, output message, "")]: the generated text is not returned. *)
Theorem generate_and_analyze_output_blocked (w : World) (gs q : pyval)
    (mnt temp : option pyval) (s s1 s2 s3 : State Event)
    (msg1 msg2 text : pyval) (d1 d2 : gmap string pyval) :
  analyze_prompt format_value w self gs q s = (inr (true, msg1, d1), s1) →
  generate_text w self q (default (PInt 256) mnt) (default (PFloat 0) temp) s1 =
    (inr text, s2) →
  analyze_output format_value w self gs q text s2 = (inr (false, msg2, d2), s3) →
  generate_and_analyze format_value w self gs q mnt temp s =
    (inr (false, msg2, PStr ""), s3).
Proof.
  intros Hprompt Htext Hout.
  rewrite generate_and_analyze_run, Hprompt, Htext, Hout. reflexivity.
Qed.

(** C3.  When both checks pass the result is [(True, "", generated_text)],
    and [generated_text] is what [generate_text] returned: the endpoint
    answered with a dict, and the text is its ['generated_text'] entry, or
    [""] when the dict has no such key. *)
Theorem generate_and_analyze_all_passed (w : World) (gs q : pyval)
    (mnt temp : option pyval) (s s1 s2 s3 : State Event)
    (msg1 msg2 text : pyval) (d1 d2 : gmap string pyval) :
  analyze_prompt format_value w self gs q s = (inr (true, msg1, d1), s1) →
  generate_text w self q (default (PInt 256) mnt) (default (PFloat 0) temp) s1 =
    (inr text, s2) →
  analyze_output format_value w self gs q text s2 = (inr (true, msg2, d2), s3) →
  generate_and_analyze format_value w self gs q mnt temp s =
    (inr (true, PStr "", text), s3)
  ∧ ∃ response,
      predict_api w (calls s1) (predictor self)
        (generation_payload q (default (PInt 256) mnt) (default (PFloat 0) temp)) =
        inr (PDict response)
      ∧ text = match response !! "generated_text" with
               | Some v => v
               | None => PStr ""
               end.
Proof.
  intros Hprompt Htext Hout. split.
  - rewrite generate_and_analyze_run, Hprompt, Htext, Hout. reflexivity.
  - rewrite generate_text_run in Htext. cbv zeta in Htext.
    injection Htext as Hgen _.
    destruct (predict_api w (calls s1) _ _) as [e | response]; [discriminate |].
    destruct response; try discriminate.
    eexists. split; [reflexivity |].
    cbn in Hgen. injection Hgen as <-. unfold dict_get.
    by destruct (d !! "generated_text").
Qed.

(** C6.  The calls one invocation of [generate_and_analyze] adds to the
    log are a non-empty prefix of the three-element sequence: input
    guardrail call, text-generation call, output guardrail call.  So each
    operation is called at most once, in that order, and nothing is
    retried. *)
Theorem generate_and_analyze_linear (w : World) (gs q : pyval)
    (mnt temp : option pyval) (s : State Event) :
  ∃ tr r1 r2 text r3,
    calls (generate_and_analyze format_value w self gs q mnt temp s).2 = calls s ++ tr
    ∧ tr ≠ []
    ∧ tr `prefix_of`
        [EvApplyGuardrail (guardrail_args self gs q q "INPUT") r1;
         EvPredict (predictor self)
           (generation_payload q (default (PInt 256) mnt) (default (PFloat 0) temp)) r2;
         EvApplyGuardrail (guardrail_args self gs q text "OUTPUT") r3].
Proof.
  destruct (generate_and_analyze_pipeline w gs q mnt temp s) as (tr & Hcalls & Hrun).
  destruct (pipeline_prefix _ _ _ _ _ _ Hrun) as (r1 & r2 & text & r3 & Hne & Hpre).
  exists tr, r1, r2, text, r3. auto.
Qed.

(** C7.  Two invocations on the same object with the same arguments, in
    any two worlds and after any two histories, that receive the same
    answers from the guardrail and generation services, produce the same
    outcome: the same [(passed, message, generated_text)] triple, or the
    same exception.  Nothing but the arguments and the answers received
    enters the result. *)
Theorem generate_and_analyze_deterministic (w1 w2 : World) (gs q : pyval)
    (mnt temp : option pyval) (s1 s2 : State Event) :
  response_of <$> issued s1 (generate_and_analyze format_value w1 self gs q mnt temp s1).2 =
    response_of <$> issued s2 (generate_and_analyze format_value w2 self gs q mnt temp s2).2 →
  (generate_and_analyze format_value w1 self gs q mnt temp s1).1 =
    (generate_and_analyze format_value w2 self gs q mnt temp s2).1.
Proof.
  destruct (generate_and_analyze_pipeline w1 gs q mnt temp s1) as (tr1 & Hc1 & Hrun1).
  destruct (generate_and_analyze_pipeline w2 gs q mnt temp s2) as (tr2 & Hc2 & Hrun2).
  rewrite (issued_calls _ _ _ Hc1), (issued_calls _ _ _ Hc2).
  eapply pipeline_functional; eassumption.
Qed.

(** C10.  A [ClientError] raised by the [apply_guardrail] call comes out
    of [analyze_text] as that same exception, and out of
    [generate_and_analyze] whenever one of the guardrail calls it issued
    raised it: no triple is returned. *)
Theorem client_error_propagates (w : World) :
  (∀ gs q gc src (s : State Event) m,
      apply_guardrail_api w (calls s) (guardrail_args self gs q gc src) =
        inl (ClientError m) →
      (analyze_text format_value w self gs q gc src s).1 = inl (ClientError m))
  ∧ (∀ gs q mnt temp (s : State Event) args m,
      EvApplyGuardrail args (inl (ClientError m))
        ∈ issued s (generate_and_analyze format_value w self gs q mnt temp s).2 →
      (generate_and_analyze format_value w self gs q mnt temp s).1 =
        inl (ClientError m)).
Proof.
  split.
  - intros gs q gc src s m Hraise.
    rewrite analyze_text_run. cbv zeta. rewrite Hraise. reflexivity.
  - intros gs q mnt temp s args m Hin.
    destruct (generate_and_analyze_pipeline w gs q mnt temp s) as (tr & Hcalls & Hrun).
    rewrite (issued_calls _ _ _ Hcalls) in Hin.
    inversion Hrun as [r1 e H1 | r1 msg d H1 | r1 msg d r2 e H1 H2
                       | r1 msg d r2 text r3 e H1 H2 H3
                       | r1 msg d r2 text r3 msg' d' H1 H2 H3
                       | r1 msg d r2 text r3 msg' d' H1 H2 H3];
      subst tr; rewrite <- ?H in *;
      repeat match goal with
        | Hm : _ ∈ _ :: _ |- _ => apply elem_of_cons in Hm as [Hm | Hm]
        | Hm : _ ∈ [] |- _ => by apply elem_of_nil in Hm
        | Hm : EvApplyGuardrail _ _ = EvApplyGuardrail _ _ |- _ =>
            injection Hm as _ <-
        | Hm : EvApplyGuardrail _ _ = EvPredict _ _ _ |- _ => discriminate Hm
        end;
      cbn in *; congruence.
Qed.

End GuardrailsProofs.

(** ** RAG retrieval and the output guardrail *)

Section RagProofs.
Import Rag.

Variable w : World.
Variable g : Globals.

(** [apply_output_guardrail] always returns: the guarded text on a
    response it can read, the original text in every other case. *)
Lemma apply_output_guardrail_run (output_text : pyval) (s : State Event) :
  (apply_output_guardrail w g output_text s).1 =
    inr (match apply_guardrail_api w (calls s) (output_guardrail_args g output_text) with
         | inl _ => output_text
         | inr response => filtered_text output_text response
         end).
Proof.
  unfold apply_output_guardrail, try_except, bind, print, bedrock_client_apply_guardrail,
    call, lift, ret, filtered_text, dict_contains, dict_getitem.
  cbn [calls].
  destruct (apply_guardrail_api w (calls s) _) as [e | response]; [reflexivity |].
  destruct (response !! "outputs") as [outputs |] eqn:Hout; [| reflexivity].
  rewrite bool_decide_eq_true_2 by eauto.
  cbv beta iota.
  destruct (py_truthy outputs); [| reflexivity].
  cbv beta iota.
  destruct (py_getitem outputs (PInt 0)) as [e | first]; [reflexivity |].
  cbv beta iota.
  destruct (py_getitem first (PStr "text")); reflexivity.
Qed.

(** C8 (amended).  [apply_output_guardrail] never raises.  It returns the
    original [output_text] when the [apply_guardrail] call raises, when
    the response has no ['outputs'] entry or a falsy one, and also when
    ['outputs'] is non-empty but [outputs[0]['text']] cannot be read (the
    error is caught by the same handler).  It returns
    [outputs[0]['text']] when that can be read. *)
Theorem apply_output_guardrail_fails_open (output_text : pyval) (s : State Event) :
  let r := apply_guardrail_api w (calls s) (output_guardrail_args g output_text) in
  let result := (apply_output_guardrail w g output_text s).1 in
  (∀ e, r = inl e → result = inr output_text)
  ∧ (∀ response, r = inr response →
       response !! "outputs" = None
       ∨ (∃ outputs, response !! "outputs" = Some outputs ∧ py_truthy outputs = false) →
       result = inr output_text)
  ∧ (∀ response outputs first text, r = inr response →
       response !! "outputs" = Some outputs →
       py_truthy outputs = true →
       py_getitem outputs (PInt 0) = inr first →
       py_getitem first (PStr "text") = inr text →
       result = inr text)
  ∧ (∀ response outputs, r = inr response →
       response !! "outputs" = Some outputs →
       py_truthy outputs = true →
       (∀ first, py_getitem outputs (PInt 0) = inr first →
                 ∃ e, py_getitem first (PStr "text") = inl e) →
       result = inr output_text).
Proof.
  intros r result. subst result. rewrite apply_output_guardrail_run. fold r.
  repeat split.
  - intros e ->. reflexivity.
  - intros response -> [Hnone | (outputs & Hsome & Hfalsy)]; unfold filtered_text.
    + by rewrite Hnone.
    + by rewrite Hsome, Hfalsy.
  - intros response outputs first text -> Hsome Htruthy Hfirst Htext.
    unfold filtered_text. by rewrite Hsome, Htruthy, Hfirst, Htext.
  - intros response outputs -> Hsome Htruthy Hno.
    unfold filtered_text. rewrite Hsome, Htruthy.
    destruct (py_getitem outputs (PInt 0)) as [e | first]; [reflexivity |].
    destruct (Hno first eq_refl) as [e ->]. reflexivity.
Qed.

(** A list comprehension whose body succeeds on every element without
    touching the state. *)
Lemma for_each_pure {A B : Type} (f : A → M Event B) (l : list A) (ys : list B)
    (s : State Event) :
  Forall2 (λ x y, ∀ s', f x s' = (inr y, s')) l ys →
  for_each f l s = (inr ys, s).
Proof.
  intros H. induction H as [| x y l ys Hx _ IH]; [reflexivity |].
  cbn [for_each]. unfold bind at 1. rewrite Hx.
  unfold bind at 1. rewrite IH. reflexivity.
Qed.

(** C5 (amended).  [retrieve_context] first calls the embedding model on
    the query, then issues one search: the k-nearest-neighbour request
    [Hits.knn_request] for the vector [embedder(query)[0][0]] and [k]
    ([3] when not given).  When the service answers with a list of hits
    whose ['_source']['text'] can be read, the function returns exactly
    those texts, in the order of the hits, one per hit: it does not cut the
    list, so the list has at most [k] elements when the search service
    honours [size]. *)
Theorem retrieve_context_knn (query : pyval) (k : option pyval) (n : Z)
    (s : State Event) (embedded row vec response outer : pyval)
    (hits texts : list pyval) :
  default (PInt 3) k = PInt n →
  embedder_api w (calls s) query = inr embedded →
  py_getitem embedded (PInt 0) = inr row →
  py_getitem row (PInt 0) = inr vec →
  search_api w (calls s ++ [EvEmbed query (inr embedded)]) (index_name g)
    (Hits.knn_request vec (PInt n)) = inr response →
  py_getitem response (PStr "hits") = inr outer →
  py_getitem outer (PStr "hits") = inr (PList hits) →
  Forall2 (λ hit text, ∃ src, py_getitem hit (PStr "_source") = inr src
                              ∧ py_getitem src (PStr "text") = inr text)
    hits texts →
  retrieve_context w g query k s =
    (inr texts,
     mkState (calls s ++ [EvEmbed query (inr embedded);
                          EvSearch (index_name g) (Hits.knn_request vec (PInt n))
                            (inr response)])
             (stdout s))
  ∧ length texts = length hits
  ∧ (honours_size w → Z.of_nat (length texts) ≤ n).
Proof.
  intros Hk Hemb Hrow Hvec Hsearch Houter Hhits Htexts.
  assert (Hbody : search_body vec (PInt n) = Hits.knn_request vec (PInt n))
    by reflexivity.
  assert (Hlen : length texts = length hits)
    by (symmetry; eapply Forall2_length, Htexts).
  split; [| split].
  - unfold retrieve_context. rewrite Hk. cbv zeta.
    unfold bind at 1. unfold embedder, call. rewrite Hemb.
    unfold bind at 1. unfold lift at 1. rewrite Hrow.
    unfold bind at 1. unfold lift at 1. rewrite Hvec.
    unfold bind at 1. unfold opensearch_client_search, call. cbn [calls stdout].
    rewrite Hbody, Hsearch.
    unfold bind at 1. unfold lift at 1. rewrite Houter.
    unfold bind at 1. unfold lift at 1. rewrite Hhits.
    unfold bind at 1. unfold lift at 1. cbn [py_iter].
    rewrite (for_each_pure _ hits texts).
    + rewrite <- app_assoc. reflexivity.
    + eapply Forall2_impl; [exact Htexts |].
      intros hit text (src & Hsrc & Htext) s'.
      unfold bind, lift. rewrite Hsrc, Htext. reflexivity.
  - exact Hlen.
  - intros Hsize. rewrite Hlen.
    eapply (Hsize _ _ _ n); [| exact Hsearch | exact Houter | exact Hhits].
    reflexivity.
Qed.

(** C9.  [get_opensearch_vector_context] returns the first retrieved
    passage and drops the others; on an empty retrieval it returns
    [None]. *)
Theorem get_opensearch_vector_context_first (input_query : pyval)
    (s s1 : State Event) (contexts : list pyval) :
  retrieve_context w g input_query None s = (inr contexts, s1) →
  (get_opensearch_vector_context w g input_query s).1 =
    inr (match contexts with
         | [] => PNone
         | first :: _ => first
         end).
Proof.
  intros Hctx. unfold get_opensearch_vector_context. cbv zeta.
  unfold bind at 1. rewrite Hctx.
  unfold bind at 1. unfold print at 1.
  destruct contexts as [| first rest]; [reflexivity |].
  unfold bind, lift, ret.
  rewrite bool_decide_eq_false_2 by discriminate.
  cbn [negb].
  replace (0 <? Z.of_nat (length (first :: rest))) with true
    by (symmetry; apply Z.ltb_lt; simpl length; lia).
  rewrite seq_index_0_cons. reflexivity.
Qed.

End RagProofs.

(** ** The theorems at work on concrete worlds *)

Import Examples.

(** C1 on a world whose guardrail blocks the prompt. *)
Lemma generate_and_analyze_input_gate_witness :
  Guardrails.analyze_prompt plain_format blocks_prompt self0 grounding question fresh =
    (inr (false, PStr "Sorry, I cannot answer that.", intervenes),
     (Guardrails.analyze_prompt plain_format blocks_prompt self0 grounding question fresh).2)
  ∧ Guardrails.generate_and_analyze plain_format blocks_prompt self0 grounding question
      None None fresh =
      (inr (false, PStr "Sorry, I cannot answer that.", PStr ""),
       (Guardrails.analyze_prompt plain_format blocks_prompt self0 grounding question fresh).2).
Proof.
  assert (Hprompt :
    Guardrails.analyze_prompt plain_format blocks_prompt self0 grounding question fresh =
      (inr (false, PStr "Sorry, I cannot answer that.", intervenes),
       (Guardrails.analyze_prompt plain_format blocks_prompt self0 grounding question fresh).2)).
  { apply run_result. reflexivity. }
  split; [exact Hprompt |].
  exact (proj1 (proj2 (generate_and_analyze_input_gate plain_format self0 blocks_prompt
                         grounding question None None fresh) _ _ _ Hprompt)).
Defined.

(** C2 on a world whose guardrail passes the prompt and blocks the answer. *)
Lemma generate_and_analyze_output_blocked_witness :
  (Guardrails.generate_and_analyze plain_format blocks_answer self0 grounding question
     None None fresh).1 =
    inr (false, PStr "Sorry, I cannot answer that.", PStr "").
Proof.
  pose (text := PStr "Paris is the capital of France.").
  pose (s1 := (Guardrails.analyze_prompt plain_format blocks_answer self0 grounding
                 question fresh).2).
  pose (s2 := (Guardrails.generate_text blocks_answer self0 question
                 (default (PInt 256) None) (default (PFloat 0) None) s1).2).
  pose (s3 := (Guardrails.analyze_output plain_format blocks_answer self0 grounding
                 question text s2).2).
  rewrite (generate_and_analyze_output_blocked plain_format self0 blocks_answer
             grounding question None None fresh s1 s2 s3
             (PStr "") (PStr "Sorry, I cannot answer that.") text passes intervenes).
  - reflexivity.
  - apply run_result. reflexivity.
  - apply run_result. reflexivity.
  - apply run_result. reflexivity.
Defined.

(** C3 on a world whose guardrail passes both checks. *)
Lemma generate_and_analyze_all_passed_witness :
  (Guardrails.generate_and_analyze plain_format passes_all self0 grounding question
     None None fresh).1 =
    inr (true, PStr "", PStr "Paris is the capital of France.").
Proof.
  pose (text := PStr "Paris is the capital of France.").
  pose (s1 := (Guardrails.analyze_prompt plain_format passes_all self0 grounding
                 question fresh).2).
  pose (s2 := (Guardrails.generate_text passes_all self0 question
                 (default (PInt 256) None) (default (PFloat 0) None) s1).2).
  pose (s3 := (Guardrails.analyze_output plain_format passes_all self0 grounding
                 question text s2).2).
  rewrite (proj1 (generate_and_analyze_all_passed plain_format self0 passes_all
                    grounding question None None fresh s1 s2 s3
                    (PStr "") (PStr "") text passes passes
                    (run_result _ _ eq_refl) (run_result _ _ eq_refl)
                    (run_result _ _ eq_refl))).
  reflexivity.
Defined.

(** C4 on a guardrail that intervenes with an empty ['outputs'] list. *)
Lemma analyze_text_empty_outputs_raises_witness :
  (Guardrails.analyze_text plain_format empty_intervention self0 grounding question
     question "INPUT" fresh).1 = inl IndexError.
Proof.
  apply (analyze_text_empty_outputs_raises plain_format self0 empty_intervention
           grounding question question "INPUT" fresh intervenes_without_output);
    reflexivity.
Defined.

(** C7 on two worlds that both block the prompt but differ in everything
    else, run after different histories. *)
Lemma generate_and_analyze_deterministic_witness :
  (Guardrails.generate_and_analyze plain_format blocks_prompt self0 grounding question
     None None fresh).1 =
  (Guardrails.generate_and_analyze plain_format blocks_prompt_endpoint_down self0
     grounding question None None used).1.
Proof.
  apply (generate_and_analyze_deterministic plain_format self0 blocks_prompt
           blocks_prompt_endpoint_down grounding question None None fresh used).
  reflexivity.
Defined.

(** C10 on a guardrail that is throttled. *)
Lemma client_error_propagates_witness :
  (Guardrails.analyze_text plain_format throttled self0 grounding question question
     "INPUT" fresh).1 = inl (ClientError "ThrottlingException")
  ∧ (Guardrails.generate_and_analyze plain_format throttled self0 grounding question
       None None fresh).1 = inl (ClientError "ThrottlingException").
Proof.
  split.
  - apply (proj1 (client_error_propagates plain_format self0 throttled)).
    reflexivity.
  - apply (proj2 (client_error_propagates plain_format self0 throttled) grounding
             question None None fresh
             (Guardrails.guardrail_args self0 grounding question question "INPUT")).
    apply list_elem_of_here.
Defined.

(** The example index honours [size]. *)
Lemma rag_world_honours_size (guarded : exn + gmap string pyval) (stored : list pyval) :
  Rag.honours_size (rag_world guarded stored).
Proof.
  intros h index body n response outer hits Hbody Hsearch Houter Hhits.
  cbn in Hsearch. rewrite Hbody in Hsearch.
  destruct (n <? 0) eqn:Hn; [discriminate |].
  apply Z.ltb_ge in Hn.
  injection Hsearch as <-.
  assert (Hout : py_getitem (search_result (take (Z.to_nat n) stored)) (PStr "hits") =
                 inr (PDict {[ "hits" := PList (take (Z.to_nat n) stored) ]}))
    by reflexivity.
  rewrite Hout in Houter. injection Houter as <-.
  assert (Hin : py_getitem (PDict {[ "hits" := PList (take (Z.to_nat n) stored) ]})
                  (PStr "hits") = inr (PList (take (Z.to_nat n) stored)))
    by reflexivity.
  rewrite Hin in Hhits. injection Hhits as <-.
  rewrite length_take. lia.
Qed.

(** C5 on an index that returns two hits for the default [k = 3]. *)
Lemma retrieve_context_knn_witness :
  Rag.retrieve_context library globals0 question None rag_fresh =
    (inr [PStr "first passage"; PStr "second passage"],
     mkState [Rag.EvEmbed question (inr embedding);
              Rag.EvSearch (Rag.index_name globals0)
                (Hits.knn_request
                   (PList [PFloat 4598175219545276416; PFloat 4602678819172646912])
                   (PInt 3))
                (inr (search_result two_hits))]
             [])
  ∧ length [PStr "first passage"; PStr "second passage"] = length two_hits
  ∧ Z.of_nat (length [PStr "first passage"; PStr "second passage"]) ≤ 3.
Proof.
  pose (vec := PList [PFloat 4598175219545276416; PFloat 4602678819172646912]).
  pose (row := PList [vec; PList [PFloat 0; PFloat 4607182418800017408]]).
  pose proof (retrieve_context_knn library globals0 question None 3 rag_fresh
                embedding row vec (search_result two_hits)
                (PDict {[ "hits" := PList two_hits ]}) two_hits
                [PStr "first passage"; PStr "second passage"]
                eq_refl eq_refl eq_refl eq_refl eq_refl eq_refl eq_refl
                ltac:(repeat constructor; eexists; split; reflexivity))
    as (Hrun & Hlen & Hbound).
  split; [exact Hrun |]. split; [exact Hlen |].
  exact (Hbound (rag_world_honours_size _ _)).
Defined.

(** C5 as stated fails on a search service that returns more hits than
    [size] asks for: asked for [k = 1], [retrieve_context] sends the
    request with [size = 1], receives two hits and returns both texts, a
    list of two elements. *)
Lemma retrieve_context_returns_every_hit :
  Rag.retrieve_context MoreExamples.generous_library globals0 question (Some (PInt 1))
    rag_fresh =
    (inr [PStr "first passage"; PStr "second passage"],
     mkState [Rag.EvEmbed question (inr embedding);
              Rag.EvSearch (Rag.index_name globals0)
                (Hits.knn_request
                   (PList [PFloat 4598175219545276416; PFloat 4602678819172646912])
                   (PInt 1))
                (inr (search_result two_hits))]
             [])
  ∧ ¬ (Z.of_nat (length [PStr "first passage"; PStr "second passage"]) ≤ 1).
Proof.
  split; [reflexivity |]. simpl. lia.
Qed.

(** C8 on a guardrail that masks a name in the answer, and on one that
    cannot be reached. *)
Lemma apply_output_guardrail_fails_open_witness :
  (Rag.apply_output_guardrail masking_guardrail globals0
     (PStr "My name is Ada.") rag_fresh).1 = inr (PStr "My name is {NAME}.")
  ∧ (Rag.apply_output_guardrail unreachable_guardrail globals0
       (PStr "My name is Ada.") rag_fresh).1 = inr (PStr "My name is Ada.").
Proof.
  split.
  - apply (proj1 (proj2 (proj2 (apply_output_guardrail_fails_open
             masking_guardrail globals0 (PStr "My name is Ada.") rag_fresh)))
             masked (PList [PDict {[ "text" := PStr "My name is {NAME}." ]}])
             (PDict {[ "text" := PStr "My name is {NAME}." ]}));
      reflexivity.
  - apply (proj1 (apply_output_guardrail_fails_open
             unreachable_guardrail globals0 (PStr "My name is Ada.") rag_fresh)
             (ServiceError "EndpointConnectionError" "")).
    reflexivity.
Defined.

(** C8 as stated fails on a guardrail answer whose only output has no
    ['text']: the call returns and ['outputs'] is a non-empty list, so the
    claim has the function return the text of the first output; but that
    element has no text, reading it raises [KeyError], and the function
    returns the original text. *)
Lemma apply_output_guardrail_textless_output :
  Rag.apply_guardrail_api textless_guardrail (calls rag_fresh)
    (Rag.output_guardrail_args globals0 (PStr "My name is Ada.")) = inr textless
  ∧ textless !! "outputs" = Some (PList [PDict ∅])
  ∧ py_truthy (PList [PDict ∅]) = true
  ∧ (Rag.apply_output_guardrail textless_guardrail globals0
       (PStr "My name is Ada.") rag_fresh).1 = inr (PStr "My name is Ada.")
  ∧ ¬ (∃ first text,
          py_getitem (PList [PDict ∅]) (PInt 0) = inr first
          ∧ py_getitem first (PStr "text") = inr text
          ∧ (Rag.apply_output_guardrail textless_guardrail globals0
               (PStr "My name is Ada.") rag_fresh).1 = inr text).
Proof.
  repeat split; try reflexivity.
  intros (first & text & Hfirst & Htext & _).
  assert (Hfirst' : py_getitem (PList [PDict ∅]) (PInt 0) = inr (PDict ∅))
    by reflexivity.
  rewrite Hfirst' in Hfirst. injection Hfirst as <-.
  assert (Htext' : py_getitem (PDict ∅) (PStr "text") = inl KeyError)
    by reflexivity.
  rewrite Htext' in Htext. discriminate.
Qed.

(** C9 on an index that returns two hits. *)
Lemma get_opensearch_vector_context_first_witness :
  (Rag.get_opensearch_vector_context library globals0 question rag_fresh).1 =
    inr (PStr "first passage").
Proof.
  apply (get_opensearch_vector_context_first library globals0 question rag_fresh
           (Rag.retrieve_context library globals0 question None rag_fresh).2
           [PStr "first passage"; PStr "second passage"]).
  apply run_result. reflexivity.
Defined.

(** * Further properties of the guarded sequencer *)

Section GuardrailsExtra.
Import Guardrails.

Variable format_value : pyval → string.
Variable self : TextGenerationWithGuardrails.

Lemma verdict_passed_inv (response d : gmap string pyval) (msg : pyval) :
  verdict format_value response = inr (true, msg, d) →
  d = response ∧ msg = PStr "" ∧ dict_get response "action" (PStr "") = PStr "NONE".
Proof.
  unfold verdict. cbv zeta.
  destruct (py_eq_str _ "NONE") eqn:Hnone.
  - intros [= <- <-]. apply py_eq_str_true in Hnone. auto.
  - destruct (py_eq_str _ "GUARDRAIL_INTERVENED"); [| discriminate].
    destruct (py_getitem _ _); [discriminate |].
    destruct (py_get _ _ _); discriminate.
Qed.

(** X1.  [analyze_text] fails closed: it reports [passed = True] exactly
    when the service answered with a response whose ['action'] is the
    string ["NONE"], and then the message is empty and the details are that
    response.  A response without ['action'], or with any other value
    there, never passes. *)
Theorem analyze_text_passes_only_on_none (w : World) (gs q gc : pyval) (src : string)
    (s : State Event) (msg : pyval) (d : gmap string pyval) :
  (analyze_text format_value w self gs q gc src s).1 = inr (true, msg, d)
  ↔ apply_guardrail_api w (calls s) (guardrail_args self gs q gc src) = inr d
    ∧ dict_get d "action" (PStr "") = PStr "NONE"
    ∧ msg = PStr "".
Proof.
  rewrite analyze_text_run. cbv zeta. cbn [fst].
  destruct (apply_guardrail_api w (calls s) _) as [e | response]; cbn [guardrail_outcome].
  - split; [discriminate | intros ([=] & _)].
  - split.
    + intros (-> & -> & Hact)%verdict_passed_inv. auto.
    + intros ([= ->] & Hact & ->).
      unfold verdict. cbv zeta. rewrite Hact. reflexivity.
Qed.

(** X2.  Whatever happens, [analyze_text] sends exactly one
    [apply_guardrail] request, built from its arguments and the guardrail
    the object was created for, and never retries.  It prints its error
    line only when that request raised a [ClientError]: a response it cannot
    read, or another exception, prints nothing. *)
Theorem analyze_text_single_request (w : World) (gs q gc : pyval) (src : string)
    (s : State Event) :
  let r := apply_guardrail_api w (calls s) (guardrail_args self gs q gc src) in
  calls (analyze_text format_value w self gs q gc src s).2 =
    calls s ++ [EvApplyGuardrail (guardrail_args self gs q gc src) r]
  ∧ stdout (analyze_text format_value w self gs q gc src s).2 =
      match r with
      | inl (ClientError m) => stdout s ++ [error_line (ClientError m)]
      | _ => stdout s
      end.
Proof.
  intros r. rewrite analyze_text_run. cbv zeta. fold r. cbn [snd calls stdout].
  split; [reflexivity |].
  destruct r as [[] | response]; reflexivity.
Qed.

(** X3.  A response whose ['action'] is neither ["NONE"] nor
    ["GUARDRAIL_INTERVENED"] is a failed check with the message
    ["Unknown action: "] followed by the action; a response with no
    ['action'] at all gives the message ["Unknown action: "]. *)
Theorem analyze_text_unknown_action (w : World) (gs q gc : pyval) (src : string)
    (s : State Event) (response : gmap string pyval) (action : string) :
  apply_guardrail_api w (calls s) (guardrail_args self gs q gc src) = inr response →
  dict_get response "action" (PStr "") = PStr action →
  action ≠ "NONE" →
  action ≠ "GUARDRAIL_INTERVENED" →
  (analyze_text format_value w self gs q gc src s).1 =
    inr (false, PStr ("Unknown action: " +:+ action), response).
Proof.
  intros Hresp Hact Hnone Hint.
  rewrite analyze_text_run. cbv zeta. rewrite Hresp. cbn [fst guardrail_outcome].
  rewrite verdict_unknown_action; rewrite Hact; [reflexivity | congruence | congruence].
Qed.

(** X4.  When the guardrail intervened, the message is taken from the
    first output alone: its ['text'], or ["Guardrail intervened"] when it
    has none.  Further outputs are ignored. *)
Theorem analyze_text_first_output_only (w : World) (gs q gc : pyval) (src : string)
    (s : State Event) (response first : gmap string pyval) (rest : list pyval) :
  apply_guardrail_api w (calls s) (guardrail_args self gs q gc src) = inr response →
  response !! "action" = Some (PStr "GUARDRAIL_INTERVENED") →
  response !! "outputs" = Some (PList (PDict first :: rest)) →
  (analyze_text format_value w self gs q gc src s).1 =
    inr (false,
         match first !! "text" with
         | Some text => text
         | None => PStr "Guardrail intervened"
         end,
         response).
Proof.
  intros Hresp Hact Hout.
  rewrite analyze_text_run. cbv zeta. rewrite Hresp. cbn [fst guardrail_outcome].
  rewrite (verdict_intervened_first_text format_value _ _ _ Hact Hout).
  unfold dict_get. by destruct (first !! "text").
Qed.

End GuardrailsExtra.

Section GuardrailsPipelineExtra.
Import Guardrails.

Variable format_value : pyval → string.
Variable self : TextGenerationWithGuardrails.

Lemma guardrail_outcome_passed_inv (r : exn + gmap string pyval) (msg : pyval)
    (d : gmap string pyval) :
  guardrail_outcome format_value r = inr (true, msg, d) →
  r = inr d ∧ msg = PStr "" ∧ dict_get d "action" (PStr "") = PStr "NONE".
Proof.
  destruct r as [e | response]; [discriminate |]. cbn [guardrail_outcome].
  intros (-> & -> & Hact)%verdict_passed_inv. auto.
Qed.

Lemma generation_outcome_inv (r : exn + pyval) (text : pyval) :
  generation_outcome r = inr text →
  ∃ response, r = inr response ∧ py_get response "generated_text" (PStr "") = inr text.
Proof. destruct r as [e | response]; [discriminate | eauto]. Qed.

(** X5.  [generate_and_analyze] releases generated text only after both
    checks: if it returns a triple with [passed = True], then it made
    exactly the three calls, both guardrail answers had the action
    ["NONE"], and the text it returns is the text the output check was run
    on, as read from the endpoint's answer.  If it returns a triple with
    [passed = False], the text in it is the empty string. *)
Theorem generate_and_analyze_releases_only_checked_text (w : World) (gs q : pyval)
    (mnt temp : option pyval) (s : State Event) (passed : bool) (msg text : pyval) :
  (generate_and_analyze format_value w self gs q mnt temp s).1 = inr (passed, msg, text) →
  if passed then
    msg = PStr ""
    ∧ ∃ d1 response d2,
        calls (generate_and_analyze format_value w self gs q mnt temp s).2 =
          calls s ++
            [EvApplyGuardrail (guardrail_args self gs q q "INPUT") (inr d1);
             EvPredict (predictor self)
               (generation_payload q (default (PInt 256) mnt) (default (PFloat 0) temp))
               (inr response);
             EvApplyGuardrail (guardrail_args self gs q text "OUTPUT") (inr d2)]
        ∧ dict_get d1 "action" (PStr "") = PStr "NONE"
        ∧ dict_get d2 "action" (PStr "") = PStr "NONE"
        ∧ py_get response "generated_text" (PStr "") = inr text
  else text = PStr "".
Proof.
  destruct (generate_and_analyze_pipeline format_value self w gs q mnt temp s)
    as (tr & Hcalls & Hrun).
  intros Hres. rewrite Hcalls. rewrite Hres in Hrun. clear Hres Hcalls.
  inversion Hrun as [| r1 msg1 d1 H1 | | | r1 msg1 d1 r2 text' r3 msg3 d3 H1 H2 H3
                     | r1 msg1 d1 r2 text' r3 msg3 d3 H1 H2 H3]; subst.
  - reflexivity.
  - reflexivity.
  - apply guardrail_outcome_passed_inv in H1 as (-> & _ & Hact1).
    apply guardrail_outcome_passed_inv in H3 as (-> & _ & Hact3).
    apply generation_outcome_inv in H2 as (response & -> & Hget).
    split; [reflexivity |]. exists d1, response, d3. auto.
Qed.

(** X6.  When the input check passed and the endpoint call raises, or
    answers with something that is not a dict (a list, say),
    [generate_and_analyze] raises (the endpoint's exception, or
    [AttributeError]) after two calls: the output guardrail is not called
    and no triple is returned. *)
Theorem generate_and_analyze_generation_failure (w : World) (gs q : pyval)
    (mnt temp : option pyval) (s : State Event) (d1 : gmap string pyval) (e : exn) :
  let check := EvApplyGuardrail (guardrail_args self gs q q "INPUT") (inr d1) in
  let payload :=
    generation_payload q (default (PInt 256) mnt) (default (PFloat 0) temp) in
  let r2 := predict_api w (calls s ++ [check]) (predictor self) payload in
  apply_guardrail_api w (calls s) (guardrail_args self gs q q "INPUT") = inr d1 →
  dict_get d1 "action" (PStr "") = PStr "NONE" →
  match r2 with
  | inl raised => raised = e
  | inr (PDict _) => False
  | inr _ => e = AttributeError
  end →
  generate_and_analyze format_value w self gs q mnt temp s =
    (inl e,
     mkState (calls s ++ [check; EvPredict (predictor self) payload r2]) (stdout s)).
Proof.
  intros check payload r2 Hin Hact Hgen.
  assert (Hout : generation_outcome r2 = inl e).
  { destruct r2 as [raised | []]; cbn; congruence || contradiction. }
  rewrite generate_and_analyze_run.
  unfold analyze_prompt. rewrite analyze_text_run. cbv zeta.
  rewrite Hin. cbn [guardrail_outcome]. unfold verdict. cbv zeta. rewrite Hact.
  cbn [py_eq_str]. rewrite bool_decide_eq_true_2 by reflexivity.
  rewrite generate_text_run. cbv zeta. cbn [calls stdout].
  fold check. fold payload. fold r2. rewrite Hout.
  rewrite <- app_assoc. reflexivity.
Qed.

(** X7.  End to end on an answer the output guardrail blocks: when the
    input check answers ["NONE"], the endpoint answers a dict, and the
    output check on its ['generated_text'] intervenes, the caller gets
    [(False, text of the first output, "")] after exactly three calls, and
    nothing is printed. *)
Theorem generate_and_analyze_blocked_answer (w : World) (gs q : pyval)
    (mnt temp : option pyval) (s : State Event)
    (d1 response d2 first : gmap string pyval) (rest : list pyval) :
  let check := EvApplyGuardrail (guardrail_args self gs q q "INPUT") (inr d1) in
  let payload :=
    generation_payload q (default (PInt 256) mnt) (default (PFloat 0) temp) in
  let generated := EvPredict (predictor self) payload (inr (PDict response)) in
  let text := dict_get response "generated_text" (PStr "") in
  apply_guardrail_api w (calls s) (guardrail_args self gs q q "INPUT") = inr d1 →
  dict_get d1 "action" (PStr "") = PStr "NONE" →
  predict_api w (calls s ++ [check]) (predictor self) payload = inr (PDict response) →
  apply_guardrail_api w (calls s ++ [check; generated])
    (guardrail_args self gs q text "OUTPUT") = inr d2 →
  d2 !! "action" = Some (PStr "GUARDRAIL_INTERVENED") →
  d2 !! "outputs" = Some (PList (PDict first :: rest)) →
  generate_and_analyze format_value w self gs q mnt temp s =
    (inr (false, dict_get first "text" (PStr "Guardrail intervened"), PStr ""),
     mkState (calls s ++ [check; generated;
                          EvApplyGuardrail (guardrail_args self gs q text "OUTPUT")
                            (inr d2)])
             (stdout s)).
Proof.
  intros check payload generated text Hin Hact Hgen Hout Hact2 Houtputs.
  rewrite generate_and_analyze_run.
  unfold analyze_prompt, analyze_output. rewrite analyze_text_run. cbv zeta.
  rewrite Hin. cbn [guardrail_outcome]. unfold verdict at 1. cbv zeta. rewrite Hact.
  cbn [py_eq_str]. rewrite bool_decide_eq_true_2 by reflexivity.
  rewrite generate_text_run. cbv zeta. cbn [calls stdout].
  fold check. fold payload. rewrite Hgen. cbn [generation_outcome py_get].
  fold text. rewrite analyze_text_run. cbv zeta. cbn [calls stdout].
  fold generated. rewrite <- app_assoc. cbn [app].
  rewrite Hout. cbn [guardrail_outcome].
  rewrite (verdict_intervened_first_text format_value _ _ _ Hact2 Houtputs).
  rewrite <- app_assoc. reflexivity.
Qed.

(** X8.  No service failure is swallowed: if any call issued during
    [generate_and_analyze], to the guardrail or to the endpoint, raised an
    exception of whatever class, that exception is the outcome. *)
Theorem generate_and_analyze_propagates_failures (w : World) (gs q : pyval)
    (mnt temp : option pyval) (s : State Event) (ev : Event) (e : exn) :
  ev ∈ issued s (generate_and_analyze format_value w self gs q mnt temp s).2 →
  response_of ev = inl (inl e) ∨ response_of ev = inr (inl e) →
  (generate_and_analyze format_value w self gs q mnt temp s).1 = inl e.
Proof.
  destruct (generate_and_analyze_pipeline format_value self w gs q mnt temp s)
    as (tr & Hcalls & Hrun).
  rewrite (issued_calls _ _ _ Hcalls). clear Hcalls.
  intros Hin Hraised.
  assert (Hg : ∀ r res, guardrail_outcome format_value r = res → r = inl e → res = inl e).
  { intros r res <- ->. reflexivity. }
  assert (Hp : ∀ r res, generation_outcome r = res → r = inl e → res = inl e).
  { intros r res <- ->. reflexivity. }
  inversion Hrun as [r1 e1 H1 | r1 msg1 d1 H1 | r1 msg1 d1 r2 e2 H1 H2
                     | r1 msg1 d1 r2 text r3 e3 H1 H2 H3
                     | r1 msg1 d1 r2 text r3 msg3 d3 H1 H2 H3
                     | r1 msg1 d1 r2 text r3 msg3 d3 H1 H2 H3];
    subst tr;
    repeat match goal with
      | Hm : _ ∈ _ :: _ |- _ => apply elem_of_cons in Hm as [-> | Hm]
      | Hm : _ ∈ [] |- _ => by apply elem_of_nil in Hm
      end;
    cbn [response_of] in Hraised;
    destruct Hraised as [[= Hr] | [= Hr]];
    first [ apply (Hg _ _ H1) in Hr | apply (Hp _ _ H2) in Hr | apply (Hg _ _ H3) in Hr ];
    congruence.
Qed.

End GuardrailsPipelineExtra.

(** * Further properties of the RAG notebook *)

Section RagExtra.
Import Rag.

Variable g : Globals.

(** X9.  [apply_output_guardrail] looks at the ['outputs'] of the answer
    and at nothing else: two answers with the same ['outputs'] entry give
    the same result, whatever their ['action'] says.  An answer that
    reports an intervention but carries no output leaves the text as it
    was, and an answer with outputs replaces it even when the action is
    ["NONE"]. *)
Theorem apply_output_guardrail_reads_outputs_only (w1 w2 : World) (output_text : pyval)
    (s1 s2 : State Event) (r1 r2 : gmap string pyval) :
  apply_guardrail_api w1 (calls s1) (output_guardrail_args g output_text) = inr r1 →
  apply_guardrail_api w2 (calls s2) (output_guardrail_args g output_text) = inr r2 →
  r1 !! "outputs" = r2 !! "outputs" →
  (apply_output_guardrail w1 g output_text s1).1 =
    (apply_output_guardrail w2 g output_text s2).1.
Proof.
  intros H1 H2 Hsame.
  rewrite !apply_output_guardrail_run, H1, H2.
  unfold filtered_text. rewrite Hsame. reflexivity.
Qed.

(** X10.  Each [apply_output_guardrail] sends exactly one [apply_guardrail]
    request, also when the answer cannot be used or the call raises: the
    request names the notebook's guardrail and version, has the source
    ["OUTPUT"], and its content is a single block holding the text.  The
    first line the function prints is its banner. *)
Theorem apply_output_guardrail_single_request (w : World) (output_text : pyval)
    (s : State Event) :
  let request :=
    {| Guardrails.guardrailIdentifier := guardrail_id g;
       Guardrails.guardrailVersion := guardrail_version g;
       Guardrails.source := "OUTPUT";
       Guardrails.content :=
         PList [PDict (<["text" := PDict (<["text" := output_text]> ∅)]> ∅)] |} in
  calls (apply_output_guardrail w g output_text s).2 =
    calls s ++
      [EvApplyGuardrail request (apply_guardrail_api w (calls s) request)]
  ∧ ∃ rest,
      stdout (apply_output_guardrail w g output_text s).2 =
        stdout s ++
          [FLit "Apply bedrock guardrails to the input using"; FLit " ";
           FVal (PStr (guardrail_id g)); FLit " ";
           FVal (PStr (guardrail_version g))] :: rest.
Proof.
  intros request.
  change request with (output_guardrail_args g output_text). clear request.
  unfold apply_output_guardrail, try_except, bind, print,
    bedrock_client_apply_guardrail, call, lift, ret, dict_contains, dict_getitem.
  cbn [calls stdout].
  assert (Hdone : ∀ (A : Type) (r : exn + A) (cs : list Event) (out : list (list fmt))
                    (banner : list fmt) (extra : list (list fmt)),
            calls (r, mkState cs ((out ++ [banner]) ++ extra)).2 = cs
            ∧ ∃ rest, stdout (r, mkState cs ((out ++ [banner]) ++ extra)).2 =
                        out ++ banner :: rest).
  { intros A r cs out banner extra. cbn. split; [reflexivity |].
    exists extra. by rewrite <- app_assoc. }
  assert (Hquiet : ∀ (A : Type) (r : exn + A) (cs : list Event) (out : list (list fmt))
                     (banner : list fmt),
            calls (r, mkState cs (out ++ [banner])).2 = cs
            ∧ ∃ rest, stdout (r, mkState cs (out ++ [banner])).2 = out ++ banner :: rest).
  { intros A r cs out banner. cbn. split; [reflexivity |]. by exists []. }
  destruct (apply_guardrail_api w (calls s) _) as [e | response]; [apply Hdone |].
  destruct (response !! "outputs") as [outputs |] eqn:Hout.
  - rewrite bool_decide_eq_true_2 by eauto. cbv beta iota.
    destruct (py_truthy outputs); cbv beta iota; [| apply Hquiet].
    destruct (py_getitem outputs (PInt 0)) as [e | first]; cbv beta iota;
      [apply Hdone |].
    destruct (py_getitem first (PStr "text")); [apply Hdone | apply Hquiet].
  - rewrite bool_decide_eq_false_2 by (intros [? [=]]). apply Hquiet.
Qed.

End RagExtra.

Section RetrievalExtra.
Import Rag Hits.

Variable w : World.
Variable g : Globals.

(** A list comprehension stops at the first element whose body raises. *)
Lemma for_each_raises {A B : Type} (f : A → M Event B) (good : list A) (ys : list B)
    (bad : A) (rest : list A) (e : exn) (s : State Event) :
  Forall2 (λ x y, ∀ s', f x s' = (inr y, s')) good ys →
  f bad s = (inl e, s) →
  for_each f (good ++ bad :: rest) s = (inl e, s).
Proof.
  intros Hgood Hbad. induction Hgood as [| x y good ys Hx _ IH].
  - cbn [app for_each]. unfold bind at 1. rewrite Hbad. reflexivity.
  - cbn [app for_each]. unfold bind at 1. rewrite Hx.
    unfold bind at 1. rewrite IH. reflexivity.
Qed.

(** [retrieve_context] up to the iteration over the hits. *)
Lemma retrieve_context_hits (query : pyval) (k : option pyval) (s : State Event)
    (embedded row vec response outer : pyval) (hits : list pyval) :
  embedder_api w (calls s) query = inr embedded →
  py_getitem embedded (PInt 0) = inr row →
  py_getitem row (PInt 0) = inr vec →
  search_api w (calls s ++ [EvEmbed query (inr embedded)]) (index_name g)
    (search_body vec (default (PInt 3) k)) = inr response →
  py_getitem response (PStr "hits") = inr outer →
  py_getitem outer (PStr "hits") = inr (PList hits) →
  retrieve_context w g query k s =
    for_each
      (λ hit,
         let* src := lift (py_getitem hit (PStr "_source")) in
         lift (py_getitem src (PStr "text")))
      hits
      (mkState (calls s ++ [EvEmbed query (inr embedded);
                            EvSearch (index_name g)
                              (search_body vec (default (PInt 3) k)) (inr response)])
               (stdout s)).
Proof.
  intros Hemb Hrow Hvec Hsearch Houter Hhits.
  unfold retrieve_context. cbv zeta.
  unfold bind at 1. unfold embedder, call. rewrite Hemb.
  unfold bind at 1. unfold lift at 1. rewrite Hrow.
  unfold bind at 1. unfold lift at 1. rewrite Hvec.
  unfold bind at 1. unfold opensearch_client_search, call. cbn [calls stdout].
  rewrite Hsearch.
  unfold bind at 1. unfold lift at 1. rewrite Houter.
  unfold bind at 1. unfold lift at 1. rewrite Hhits.
  unfold bind at 1. unfold lift at 1. cbn [py_iter].
  rewrite <- app_assoc. reflexivity.
Qed.

(** X11.  Without a query vector there is no search: when the embedding
    model raises, or its answer has no element [[0][0]], [retrieve_context]
    raises that error having called the embedding model only. *)
Theorem retrieve_context_no_vector_no_search (query : pyval) (k : option pyval)
    (s : State Event) (e : exn) :
  let r := embedder_api w (calls s) query in
  r = inl e
  ∨ (∃ embedded, r = inr embedded ∧ py_getitem embedded (PInt 0) = inl e)
  ∨ (∃ embedded row, r = inr embedded ∧ py_getitem embedded (PInt 0) = inr row
                     ∧ py_getitem row (PInt 0) = inl e) →
  retrieve_context w g query k s =
    (inl e, mkState (calls s ++ [EvEmbed query r]) (stdout s)).
Proof.
  intros r Hcases. unfold retrieve_context. cbv zeta.
  unfold bind at 1. unfold embedder, call. fold r.
  destruct Hcases as [Hr | [(embedded & Hr & H0) | (embedded & row & Hr & H0 & H1)]];
    rewrite Hr.
  - reflexivity.
  - unfold bind at 1. unfold lift at 1. rewrite H0. reflexivity.
  - unfold bind at 1. unfold lift at 1. rewrite H0.
    unfold bind at 1. unfold lift at 1. rewrite H1. reflexivity.
Qed.

(** X12.  [retrieve_context] returns all the texts or none: when a hit has
    no ['_source'] or its source has no ['text'], the error is raised and
    the texts of the hits before it are not returned. *)
Theorem retrieve_context_unreadable_hit (query : pyval) (k : option pyval)
    (s : State Event) (embedded row vec response outer : pyval)
    (good texts : list pyval) (bad : pyval) (rest : list pyval) (e : exn) :
  embedder_api w (calls s) query = inr embedded →
  py_getitem embedded (PInt 0) = inr row →
  py_getitem row (PInt 0) = inr vec →
  search_api w (calls s ++ [EvEmbed query (inr embedded)]) (index_name g)
    (search_body vec (default (PInt 3) k)) = inr response →
  py_getitem response (PStr "hits") = inr outer →
  py_getitem outer (PStr "hits") = inr (PList (good ++ bad :: rest)) →
  Forall2 readable good texts →
  unreadable bad e →
  (retrieve_context w g query k s).1 = inl e.
Proof.
  intros Hemb Hrow Hvec Hsearch Houter Hhits Hgood Hbad.
  rewrite (retrieve_context_hits _ _ _ _ _ _ _ _ _ Hemb Hrow Hvec Hsearch Houter Hhits).
  rewrite (for_each_raises _ good texts bad rest e); [reflexivity | |].
  - eapply Forall2_impl; [exact Hgood |].
    intros hit text (src & Hsrc & Htext) s'.
    unfold bind, lift. rewrite Hsrc, Htext. reflexivity.
  - unfold bind, lift.
    destruct Hbad as [Hsrc | (src & Hsrc & Htext)]; rewrite Hsrc; [reflexivity |].
    rewrite Htext. reflexivity.
Qed.

(** X13.  End to end, [get_opensearch_vector_context] asks the index for
    three neighbours of the query vector, whatever the query (the request
    is [Hits.knn_request] with [k = 3]), and returns the text of the first
    hit, or [None] when the index returns no hit; it prints the retrieved
    list. *)
Theorem get_opensearch_vector_context_top_hit (input_query : pyval) (s : State Event)
    (embedded row vec response outer : pyval) (hits texts : list pyval) :
  embedder_api w (calls s) input_query = inr embedded →
  py_getitem embedded (PInt 0) = inr row →
  py_getitem row (PInt 0) = inr vec →
  search_api w (calls s ++ [EvEmbed input_query (inr embedded)]) (index_name g)
    (knn_request vec (PInt 3)) = inr response →
  py_getitem response (PStr "hits") = inr outer →
  py_getitem outer (PStr "hits") = inr (PList hits) →
  Forall2 readable hits texts →
  get_opensearch_vector_context w g input_query s =
    (inr (match texts with
          | [] => PNone
          | first :: _ => first
          end),
     mkState (calls s ++ [EvEmbed input_query (inr embedded);
                          EvSearch (index_name g) (knn_request vec (PInt 3))
                            (inr response)])
             (stdout s ++ [[FLit "Retrieved context: "; FLit " "; FVal (PList texts)]])).
Proof.
  intros Hemb Hrow Hvec Hsearch Houter Hhits Htexts.
  assert (Hbody : knn_request vec (PInt 3) = search_body vec (default (PInt 3) None))
    by reflexivity.
  rewrite Hbody in Hsearch |- *.
  unfold get_opensearch_vector_context. cbv zeta.
  unfold bind at 1.
  rewrite (retrieve_context_hits _ None _ _ _ _ _ _ _ Hemb Hrow Hvec Hsearch Houter Hhits).
  rewrite (for_each_pure _ hits texts).
  2:{ eapply Forall2_impl; [exact Htexts |].
      intros hit text (src & Hsrc & Htext) s'.
      unfold bind, lift. rewrite Hsrc, Htext. reflexivity. }
  unfold bind at 1. unfold print at 1. cbn [calls stdout].
  destruct texts as [| first more]; [reflexivity |].
  unfold bind, lift, ret.
  rewrite bool_decide_eq_false_2 by discriminate.
  cbn [negb].
  replace (0 <? Z.of_nat (length (first :: more))) with true
    by (symmetry; apply Z.ltb_lt; simpl length; lia).
  rewrite seq_index_0_cons. reflexivity.
Qed.

End RetrievalExtra.

(** * The endpoint listing and the fine-tuning notebook *)

(** X14.  [list_sagemaker_endpoints] never raises.  It makes one request
    and returns the ['Endpoints'] entry of the answer, or the empty list
    when the answer has no such entry; when the request raises, whatever
    the exception, it prints the error and returns the empty list. *)
Theorem list_sagemaker_endpoints_never_raises (w : Endpoints.World)
    (s : State Endpoints.Event) :
  let r := Endpoints.list_endpoints_api w (calls s) in
  Endpoints.list_sagemaker_endpoints w s =
    (inr (match r with
          | inl _ => PList []
          | inr response =>
              match response !! "Endpoints" with
              | Some endpoints => endpoints
              | None => PList []
              end
          end),
     mkState (calls s ++ [Endpoints.EvListEndpoints r])
             (match r with
              | inl e => stdout s ++ [[FLit "Error listing endpoints: "; FExn e]]
              | inr _ => stdout s
              end)).
Proof.
  intros r.
  unfold Endpoints.list_sagemaker_endpoints, try_except, bind, call, ret, print, dict_get.
  fold r. destruct r as [e | response]; [reflexivity |].
  cbn. by destruct (response !! "Endpoints").
Qed.

Section TrainingExtra.
Import Training.

Variable w : World.

(** X15.  [get_s3_path_from_job_name] returns a pair exactly when the
    job description holds both paths, [ModelArtifacts.S3ModelArtifacts] and
    [OutputDataConfig.S3OutputPath], and then returns them in that order;
    in every other case it raises, so it never returns one path without
    the other. *)
Theorem get_s3_path_from_job_name_both_or_none (job_name : pyval)
    (s : State Event) (model_artifacts output_path : pyval) :
  (get_s3_path_from_job_name w job_name s).1 = inr (model_artifacts, output_path)
  ↔ ∃ response artifacts config,
      describe_training_job_api w (calls s) job_name = inr response
      ∧ response !! "ModelArtifacts" = Some artifacts
      ∧ py_getitem artifacts (PStr "S3ModelArtifacts") = inr model_artifacts
      ∧ response !! "OutputDataConfig" = Some config
      ∧ py_getitem config (PStr "S3OutputPath") = inr output_path.
Proof.
  unfold get_s3_path_from_job_name, bind, call, lift, ret, dict_getitem.
  destruct (describe_training_job_api w (calls s) job_name) as [e | response].
  { cbn. split; [discriminate | intros (? & ? & ? & [=] & _)]. }
  destruct (response !! "ModelArtifacts") as [artifacts |] eqn:Hart.
  2:{ cbn. split; [discriminate |].
      intros (? & ? & ? & [= <-] & Hsome & _). congruence. }
  cbv beta iota.
  destruct (py_getitem artifacts (PStr "S3ModelArtifacts")) as [e | path] eqn:Hpath.
  { cbn. split; [discriminate |].
    intros (? & ? & ? & [= <-] & Hsome & Hget & _). congruence. }
  cbv beta iota.
  destruct (response !! "OutputDataConfig") as [config |] eqn:Hcfg.
  2:{ cbn. split; [discriminate |].
      intros (? & ? & ? & [= <-] & _ & _ & Hsome & _). congruence. }
  cbv beta iota.
  destruct (py_getitem config (PStr "S3OutputPath")) as [e | out] eqn:Hout.
  { cbn. split; [discriminate |].
    intros (? & ? & ? & [= <-] & _ & _ & Hsome & Hget). congruence. }
  cbn. split.
  - intros [= <- <-]. eauto 10.
  - intros (? & ? & ? & [= <-] & Ha & Hp & Hc & Ho). congruence.
Qed.

(** X16.  For a job whose description has no ['ModelArtifacts'] (one that
    has not produced any), [get_s3_path_from_job_name] raises [KeyError]
    after its one request, even though the output path is there. *)
Theorem get_s3_path_from_job_name_no_artifacts (job_name : pyval) (s : State Event)
    (response : gmap string pyval) :
  describe_training_job_api w (calls s) job_name = inr response →
  response !! "ModelArtifacts" = None →
  get_s3_path_from_job_name w job_name s =
    (inl KeyError,
     mkState (calls s ++ [EvDescribeTrainingJob job_name (inr response)]) (stdout s)).
Proof.
  intros Hresp Hnone.
  unfold get_s3_path_from_job_name, bind, call, lift, dict_getitem.
  rewrite Hresp, Hnone. reflexivity.
Qed.

End TrainingExtra.

Section PromptExtra.
Import Training.

Variable format_value : pyval → string.

(** X17.  [create_rag_sft_prompts] returns a row exactly when the three
    columns are present, and the row it returns has the single column
    ['prompt']; a row that lacks one of them raises [KeyError], no prompt
    with a blank is made. *)
Theorem create_rag_sft_prompts_needs_all_columns (data_point : gmap string pyval) :
  match create_rag_sft_prompts format_value data_point with
  | inr out =>
      is_Some (data_point !! "context")
      ∧ is_Some (data_point !! "question")
      ∧ is_Some (data_point !! "synthetic_answer")
      ∧ ∃ prompt, out = {[ "prompt" := PStr prompt ]}
  | inl e =>
      e = KeyError
      ∧ (data_point !! "context" = None
         ∨ data_point !! "question" = None
         ∨ data_point !! "synthetic_answer" = None)
  end.
Proof.
  unfold create_rag_sft_prompts, dict_getitem.
  destruct (data_point !! "context"); [| auto].
  destruct (data_point !! "question"); [| auto].
  destruct (data_point !! "synthetic_answer"); [| auto].
  cbv zeta. repeat split; eauto.
Qed.

End PromptExtra.

(** * The further properties at work *)

Import MoreExamples.

(** X3 on a guardrail answer without an action. *)
Lemma analyze_text_unknown_action_witness :
  (Guardrails.analyze_text plain_format answers_actionless self0 grounding question
     question "INPUT" fresh).1 = inr (false, PStr "Unknown action: ", actionless).
Proof.
  apply (analyze_text_unknown_action plain_format self0 answers_actionless grounding
           question question "INPUT" fresh actionless "");
    [reflexivity | reflexivity | discriminate | discriminate].
Defined.

(** X4 on an intervention with two outputs. *)
Lemma analyze_text_first_output_only_witness :
  (Guardrails.analyze_text plain_format blocks_prompt_twice self0 grounding question
     question "INPUT" fresh).1 =
    inr (false, PStr "Sorry, I cannot answer that.", intervenes_twice).
Proof.
  exact (analyze_text_first_output_only plain_format self0 blocks_prompt_twice grounding
           question question "INPUT" fresh intervenes_twice
           {[ "text" := PStr "Sorry, I cannot answer that." ]}
           [PDict {[ "text" := PStr "second output" ]}]
           eq_refl eq_refl eq_refl).
Defined.

(** X5 on a run that passes both checks. *)
Lemma generate_and_analyze_releases_only_checked_text_witness :
  PStr "" = PStr ""
  ∧ ∃ d1 response d2,
      calls (Guardrails.generate_and_analyze plain_format passes_all self0 grounding
               question None None fresh).2 =
        calls fresh ++
          [Guardrails.EvApplyGuardrail
             (Guardrails.guardrail_args self0 grounding question question "INPUT")
             (inr d1);
           Guardrails.EvPredict (Guardrails.predictor self0)
             (Guardrails.generation_payload question (default (PInt 256) None)
                (default (PFloat 0) None))
             (inr response);
           Guardrails.EvApplyGuardrail
             (Guardrails.guardrail_args self0 grounding question
                (PStr "Paris is the capital of France.") "OUTPUT")
             (inr d2)]
      ∧ dict_get d1 "action" (PStr "") = PStr "NONE"
      ∧ dict_get d2 "action" (PStr "") = PStr "NONE"
      ∧ py_get response "generated_text" (PStr "") =
          inr (PStr "Paris is the capital of France.").
Proof.
  exact (generate_and_analyze_releases_only_checked_text plain_format self0 passes_all
           grounding question None None fresh true (PStr "")
           (PStr "Paris is the capital of France.") eq_refl).
Defined.

(** X6 on an endpoint that answers with a list. *)
Lemma generate_and_analyze_generation_failure_witness :
  (Guardrails.generate_and_analyze plain_format answers_list self0 grounding question
     None None fresh).1 = inl AttributeError.
Proof.
  rewrite (generate_and_analyze_generation_failure plain_format self0 answers_list
             grounding question None None fresh passes AttributeError);
    reflexivity.
Defined.

(** X7 on a world whose guardrail blocks the answer. *)
Lemma generate_and_analyze_blocked_answer_witness :
  (Guardrails.generate_and_analyze plain_format blocks_answer self0 grounding question
     None None fresh).1 = inr (false, PStr "Sorry, I cannot answer that.", PStr "").
Proof.
  rewrite (generate_and_analyze_blocked_answer plain_format self0 blocks_answer
             grounding question None None fresh passes
             {[ "generated_text" := PStr "Paris is the capital of France." ]}
             intervenes {[ "text" := PStr "Sorry, I cannot answer that." ]} []);
    reflexivity.
Defined.

(** X8 on an endpoint that is down. *)
Lemma generate_and_analyze_propagates_failures_witness :
  (Guardrails.generate_and_analyze plain_format endpoint_down self0 grounding question
     None None fresh).1 = inl (ServiceError "ModelError" "timed out").
Proof.
  apply (generate_and_analyze_propagates_failures plain_format self0 endpoint_down
           grounding question None None fresh
           (Guardrails.EvPredict (Guardrails.predictor self0)
              (Guardrails.generation_payload question (PInt 256) (PFloat 0))
              (inl (ServiceError "ModelError" "timed out")))).
  - apply list_elem_of_further, list_elem_of_here.
  - right. reflexivity.
Defined.

(** X9 on two answers with the same outputs and different actions. *)
Lemma apply_output_guardrail_reads_outputs_only_witness :
  (Rag.apply_output_guardrail masking_guardrail globals0 (PStr "My name is Ada.")
     rag_fresh).1 =
  (Rag.apply_output_guardrail quiet_guardrail globals0 (PStr "My name is Ada.")
     rag_fresh).1.
Proof.
  apply (apply_output_guardrail_reads_outputs_only globals0 masking_guardrail
           quiet_guardrail (PStr "My name is Ada.") rag_fresh rag_fresh
           masked masked_quietly);
    reflexivity.
Defined.

(** X11 on an embedding model that returns an empty batch. *)
Lemma retrieve_context_no_vector_no_search_witness :
  Rag.retrieve_context no_embedding globals0 question None rag_fresh =
    (inl IndexError, mkState [Rag.EvEmbed question (inr (PList []))] []).
Proof.
  apply (retrieve_context_no_vector_no_search no_embedding globals0 question None
           rag_fresh IndexError).
  right. left. exists (PList []). split; reflexivity.
Defined.

(** X12 on an index whose second hit has no source document. *)
Lemma retrieve_context_unreadable_hit_witness :
  (Rag.retrieve_context damaged_library globals0 question None rag_fresh).1 =
    inl KeyError.
Proof.
  pose (vec := PList [PFloat 4598175219545276416; PFloat 4602678819172646912]).
  pose (row := PList [vec; PList [PFloat 0; PFloat 4607182418800017408]]).
  pose (stored := [hit "first passage"; bare_hit; hit "third passage"]).
  apply (retrieve_context_unreadable_hit damaged_library globals0 question None
           rag_fresh embedding row vec (search_result stored)
           (PDict {[ "hits" := PList stored ]})
           [hit "first passage"] [PStr "first passage"] bare_hit
           [hit "third passage"] KeyError);
    try reflexivity.
  - repeat constructor. eexists. split; reflexivity.
  - left. reflexivity.
Defined.

(** X13 on an index that returns two hits, and on an empty index. *)
Lemma get_opensearch_vector_context_top_hit_witness :
  Rag.get_opensearch_vector_context library globals0 question rag_fresh =
    (inr (PStr "first passage"),
     mkState [Rag.EvEmbed question (inr embedding);
              Rag.EvSearch (Rag.index_name globals0)
                (Hits.knn_request
                   (PList [PFloat 4598175219545276416; PFloat 4602678819172646912])
                   (PInt 3))
                (inr (search_result two_hits))]
             [[FLit "Retrieved context: "; FLit " ";
               FVal (PList [PStr "first passage"; PStr "second passage"])]])
  ∧ (Rag.get_opensearch_vector_context empty_library globals0 question rag_fresh).1 =
      inr PNone.
Proof.
  pose (vec := PList [PFloat 4598175219545276416; PFloat 4602678819172646912]).
  pose (row := PList [vec; PList [PFloat 0; PFloat 4607182418800017408]]).
  split.
  - exact (get_opensearch_vector_context_top_hit library globals0 question
             rag_fresh embedding row vec (search_result two_hits)
             (PDict {[ "hits" := PList two_hits ]}) two_hits
             [PStr "first passage"; PStr "second passage"]
             eq_refl eq_refl eq_refl eq_refl eq_refl eq_refl
             ltac:(repeat constructor; eexists; split; reflexivity)).
  - rewrite (get_opensearch_vector_context_top_hit empty_library globals0 question
               rag_fresh embedding row vec (search_result [])
               (PDict {[ "hits" := PList [] ]}) [] []);
      try reflexivity.
    constructor.
Defined.

(** X16 on a job without artifacts. *)
Lemma get_s3_path_from_job_name_no_artifacts_witness :
  (Training.get_s3_path_from_job_name (jobs (inr running_job)) (PStr "job-2")
     no_jobs_called).1 = inl KeyError.
Proof.
  rewrite (get_s3_path_from_job_name_no_artifacts (jobs (inr running_job))
             (PStr "job-2") no_jobs_called running_job);
    reflexivity.
Defined.
